(** * The FitTrack calorie-prediction backend (app.py, text_save.py)

    A shallow embedding of the request handlers of [app.py], of the
    module-level code that loads the estimator and of the test script
    [text_save.py], followed by the properties of the category encoder, of
    the 28-slot feature list built by the [/predict] handler, of the
    handlers' error handling, of the sign-up stub, of start-up and of the
    test script.

    Modelling conventions.
    - A Python [float] is an IEEE-754 value, [spec_float] of the Standard
      Library: the handlers never compute with floats, they only test them
      for truth and pass them on.
    - A Python [int] is a [Z]; a [dict] with string keys is a [gmap string].
    - A Python [str] is a [string] of ASCII characters, on which
      [str.lower] sends 'A'..'Z' to 'a'..'z' and fixes every other
      character ([str.upper] likewise, the other way round).
    - Handlers run in a state-and-exception monad over the module's
      globals, so that "reads no global", "raises nothing" and "leaves the
      globals alone" are statements about the code and not about the
      notation. *)

From Stdlib Require Import ZArith String Ascii List Bool Lia.
From Stdlib Require Import Floats.SpecFloat.
From stdpp Require Import base option list gmap strings fin_maps.
Import ListNotations.

Local Open Scope string_scope.
Local Open Scope Z_scope.

(** ** Python values *)

Abbreviation float := spec_float.

Inductive pyval : Type :=
  | VNone
  | VInt (n : Z)
  | VFloat (x : float)
  | VStr (s : string).

#[global] Instance float_eq_dec : EqDecision float.
Proof. solve_decision. Defined.

#[global] Instance pyval_eq_dec : EqDecision pyval.
Proof. solve_decision. Defined.

(** [bool(x)] for a float: false exactly for the two zeros; NaN and the
    infinities are true. *)
Definition float_truthy (x : float) : bool :=
  match x with
  | S754_zero _ => false
  | _ => true
  end.

(** [x or 0] where [x] is an [Optional[float]] attribute: [None] and the
    zeros are falsy and give the int [0]; any other float is the result. *)
Definition or_0 (x : option float) : pyval :=
  match x with
  | None => VInt 0
  | Some f => if float_truthy f then VFloat f else VInt 0
  end.

(** ** Strings: [str.lower] and [str.upper] on ASCII *)

Definition lower_char (c : ascii) : ascii :=
  let n := N_of_ascii c in
  if ((65 <=? n) && (n <=? 90))%N then ascii_of_N (n + 32) else c.

Definition upper_char (c : ascii) : ascii :=
  let n := N_of_ascii c in
  if ((97 <=? n) && (n <=? 122))%N then ascii_of_N (n - 32) else c.

Fixpoint lower (s : string) : string :=
  match s with
  | EmptyString => EmptyString
  | String c s' => String (lower_char c) (lower s')
  end.

Fixpoint upper (s : string) : string :=
  match s with
  | EmptyString => EmptyString
  | String c s' => String (upper_char c) (upper s')
  end.

(** [str(x)] of a value that already is a [str]. *)
Definition str (s : string) : string := s.

(** ** Dict literals

    [{k1: v1, ..., kn: vn}] stores the items from left to right, a later
    item replacing an earlier one with the same key. *)
Definition dict_literal {V : Type} (items : list (string * V)) : gmap string V :=
  foldl (fun d kv => <[kv.1 := kv.2]> d) ∅ items.

(** ** Exceptions *)

Inductive exn_class : Type :=
  | FileNotFoundError
  | FileExistsError
  | IsADirectoryError
  | IndexError
  | KeyError
  | ValueError
  | RuntimeError
  | KeyboardInterrupt
  | SystemExit
  | GeneratorExit.

(** [issubclass(c, Exception)]: the three classes below derive from
    [BaseException] only. *)
Definition is_Exception (c : exn_class) : bool :=
  match c with
  | KeyboardInterrupt | SystemExit | GeneratorExit => false
  | _ => true
  end.

(** An exception object: its class and what [str(e)] gives. *)
Record exn : Type := Exn { exn_cls : exn_class; exn_str : string }.

Inductive outcome (A : Type) : Type :=
  | Return (a : A)
  | Raise (e : exn).
Arguments Return {A} a.
Arguments Raise {A} e.

(** ** The module's globals

    [model] is the object [joblib.load] returned; only its [predict] is
    ever used, on a list of rows, and it either returns the array of
    predictions or raises. [fake_users_db] is the dict of the sign-up
    stub, from e-mail to the stored user dict. *)

Definition Estimator : Type := list (list pyval) -> outcome (list float).

Record Globals : Type := {
  model : Estimator;
  fake_users_db : gmap string (gmap string pyval)
}.

(** ** The handler monad: globals in, outcome and globals out *)

Definition M (A : Type) : Type := Globals -> outcome A * Globals.

#[global] Instance M_ret : MRet M := fun A a g => (Return a, g).

#[global] Instance M_bind : MBind M := fun A B k c g =>
  match c g with
  | (Return a, g') => k a g'
  | (Raise e, g') => (Raise e, g')
  end.

Definition raise {A : Type} (e : exn) : M A := fun g => (Raise e, g).

(** [try: body  except Exception as e: handler(e)]. An exception whose
    class does not derive from [Exception] passes through. *)
Definition try_except_Exception {A : Type} (body : M A) (handler : exn -> M A) : M A :=
  fun g =>
    match body g with
    | (Return a, g') => (Return a, g')
    | (Raise e, g') =>
        if is_Exception (exn_cls e) then handler e g' else (Raise e, g')
    end.

(** Reading the global [model] and calling its [predict]. *)
Definition model_predict (X : list (list pyval)) : M (list float) :=
  fun g => (model g X, g).

(** [a[0]] on the array of predictions. *)
Definition getitem_0 (a : list float) : M float :=
  match a with
  | x :: _ => mret x
  | [] => raise (Exn IndexError "index 0 is out of bounds for axis 0 with size 0")
  end.

(** ** Request bodies *)

Record AuthRequest : Type := {
  name : option string;
  email : string;
  password : string
}.

Record PredictRequest : Type := {
  age : option float;
  gender : option string;
  weight : option float;
  height : option float;
  fat_percentage : option float;
  bmi_input : option float;

  workout_type : option string;
  session_duration : option float;
  workout_frequency : option float;
  max_bpm : option float;
  avg_bpm : option float;
  resting_bpm : option float;
  difficulty : option string;
  body_part : option string;

  meal_type : option string;
  diet_type : option string;
  cooking_method : option string;
  water_intake : option float;
  meals_frequency : option float;
  sugar_g : option float;
  sodium_mg : option float;
  cholesterol_mg : option float;
  serving_size_g : option float;
  prep_time_min : option float;
  cook_time_min : option float;
  rating : option float;

  experience_level : option float;
  physical_exercise : option float
}.

(** ** What a handler returns, and the status it is sent with *)

Inductive reply : Type :=
  | Dict (d : gmap string pyval)
  | Response (content : string) (status_code : Z).


(** ** The fake auth store *)

Definition signup (data : AuthRequest) : M reply :=
  fun g =>
    match fake_users_db g !! email data with
    | Some _ => (Return (Dict {[ "error" := VStr "User already exists" ]}), g)
    | None =>
        let user : gmap string pyval :=
          dict_literal [("name", from_option VStr VNone (name data));
                        ("password", VStr (password data))] in
        (Return (Dict {[ "message" := VStr "Signup successful" ]}),
         {| model := model g;
            fake_users_db := <[email data := user]> (fake_users_db g) |})
    end.

Definition login (data : AuthRequest) : M reply :=
  fun g =>
    match fake_users_db g !! email data with
    | None => (Return (Dict {[ "error" := VStr "Invalid credentials" ]}), g)
    | Some user =>
        (* [not user]: an empty dict is falsy *)
        if decide (user = ∅)
        then (Return (Dict {[ "error" := VStr "Invalid credentials" ]}), g)
        else
          match user !! "password" with
          | None => (Raise (Exn KeyError "'password'"), g)
          | Some p =>
              if decide (p = VStr (password data))
              then (Return (Dict {[ "message" := VStr "Login successful" ]}), g)
              else (Return (Dict {[ "error" := VStr "Invalid credentials" ]}), g)
          end
    end.

(** ** The category encoder *)

Definition encode (category : option string) (mapping : gmap string Z) : M Z :=
  match category with
  | None => mret 0
  | Some c => mret (default 0 (mapping !! lower (str c)))
  end.

(** The code [encode] computes, as a plain function of its arguments. *)
Definition code_of (category : option string) (mapping : gmap string Z) : Z :=
  from_option (fun c => default 0 (mapping !! lower c)) 0 category.

Definition gender_map : gmap string Z :=
  dict_literal [("male", 1); ("female", 2); ("other", 3)].
Definition workout_map : gmap string Z :=
  dict_literal [("strength", 1); ("cardio", 2); ("flexibility", 3); ("other", 4)].
Definition difficulty_map : gmap string Z :=
  dict_literal [("beginner", 1); ("intermediate", 2); ("advanced", 3)].
Definition body_part_map : gmap string Z :=
  dict_literal [("core", 1); ("upper body", 2); ("lower body", 3);
                ("full body", 4); ("other", 5)].
Definition meal_map : gmap string Z :=
  dict_literal [("breakfast", 1); ("lunch", 2); ("dinner", 3); ("snack", 4)].
Definition diet_map : gmap string Z :=
  dict_literal [("standard", 1); ("vegan", 2); ("keto", 3); ("paleo", 4);
                ("mediterranean", 5)].
Definition cooking_map : gmap string Z :=
  dict_literal [("baked", 1); ("boiled", 2); ("grilled", 3); ("fried", 4);
                ("steamed", 5)].

(** ** The predict endpoint *)

(** The first part of the [try] block of [predict]: the seven calls of
    [encode] and the list [features]. *)
Definition predict_features (data : PredictRequest) : M (list pyval) :=
  gender ← encode (gender data) gender_map;
  workout_type ← encode (workout_type data) workout_map;
  difficulty ← encode (difficulty data) difficulty_map;
  body_part ← encode (body_part data) body_part_map;
  meal_type ← encode (meal_type data) meal_map;
  diet_type ← encode (diet_type data) diet_map;
  cooking_method ← encode (cooking_method data) cooking_map;
  mret [
    or_0 (age data); VInt gender; or_0 (weight data); or_0 (height data);
    or_0 (fat_percentage data); or_0 (bmi_input data);
    VInt workout_type; or_0 (session_duration data);
    or_0 (workout_frequency data); or_0 (max_bpm data);
    or_0 (avg_bpm data); or_0 (resting_bpm data);
    VInt difficulty; VInt body_part;
    VInt meal_type; VInt diet_type; VInt cooking_method;
    or_0 (water_intake data); or_0 (meals_frequency data);
    or_0 (sugar_g data); or_0 (sodium_mg data);
    or_0 (cholesterol_mg data); or_0 (serving_size_g data);
    or_0 (prep_time_min data); or_0 (cook_time_min data);
    or_0 (rating data);
    or_0 (experience_level data); or_0 (physical_exercise data)
  ].

(** The whole [try] block of [predict]. *)
Definition predict_try (data : PredictRequest) : M reply :=
  features ← predict_features data;
  preds ← model_predict [features];
  pred ← getitem_0 preds;
  (* float(pred) of a float64 is that very value *)
  mret (Dict {[ "predicted_calories" := VFloat pred ]}).

Definition predict (data : PredictRequest) : M reply :=
  try_except_Exception
    (predict_try data)
    (fun e => mret (Dict {[ "error" := VStr (exn_str e) ]})).

(** ** Health check *)

Definition health : M reply :=
  mret (Dict {[ "status" := VStr "FitTrack AI Backend Running!" ]}).

Definition favicon : M reply := mret (Response "" 204).

(** ** Start-up: the module-level code

    The file system is a finite map from paths to nodes. A file is
    represented by what [joblib.load] makes of its bytes: an estimator, or
    the exception unpickling ends in. *)

Inductive node : Type :=
  | Directory
  | File (unpickled : outcome Estimator).

(** Whether a path ends in a slash. *)
Fixpoint ends_with_sep (p : string) : bool :=
  match p with
  | EmptyString => false
  | String c EmptyString => bool_decide (c = "/"%char)
  | String _ p' => ends_with_sep p'
  end.

(** [os.path.join(a, b)] for a relative [b]. *)
Definition path_join (a b : string) : string :=
  if bool_decide (a = "") || ends_with_sep a then a +:+ b else a +:+ "/" +:+ b.

Section Startup.
(** [os.path.dirname(os.path.abspath(__file__))] *)
Variable BASE_DIR : string.

Definition STATIC_DIR : string := path_join BASE_DIR "static".
Definition INDEX_FILE : string := path_join STATIC_DIR "index1.html".
Definition MODEL_FILE : string :=
  path_join BASE_DIR "calories_predictor_model.joblib".

(** [os.makedirs(path, exist_ok=True)], the parent being there. *)
Definition makedirs_exist_ok (path : string) (fs : gmap string node)
  : outcome unit * gmap string node :=
  match fs !! path with
  | Some Directory => (Return tt, fs)
  | Some (File _) => (Raise (Exn FileExistsError path), fs)
  | None => (Return tt, <[path := Directory]> fs)
  end.

(** [os.path.exists(path)] *)
Definition path_exists (path : string) (fs : gmap string node) : bool :=
  bool_decide (is_Some (fs !! path)).

(** [joblib.load(path)] *)
Definition joblib_load (path : string) (fs : gmap string node) : outcome Estimator :=
  match fs !! path with
  | Some (File unpickled) => unpickled
  | Some Directory => Raise (Exn IsADirectoryError path)
  | None => Raise (Exn FileNotFoundError path)
  end.

(** Importing [app.py]: the globals the handlers will run on, or the
    exception the import stops with. *)
Definition startup (fs : gmap string node) : outcome Globals * gmap string node :=
  match makedirs_exist_ok STATIC_DIR fs with
  | (Raise e, fs') => (Raise e, fs')
  | (Return _, fs') =>
      if negb (path_exists MODEL_FILE fs')
      then (Raise (Exn FileNotFoundError
                     "Model file missing: calories_predictor_model.joblib"), fs')
      else
        match joblib_load MODEL_FILE fs' with
        | Raise e => (Raise e, fs')
        | Return m => (Return {| model := m; fake_users_db := ∅ |}, fs')
        end
  end.
End Startup.

(** ** Serving *)

Inductive request : Type :=
  | GET_favicon
  | POST_signup (data : AuthRequest)
  | POST_login (data : AuthRequest)
  | POST_predict (data : PredictRequest)
  | GET_status.

Definition dispatch (r : request) : M reply :=
  match r with
  | GET_favicon => favicon
  | POST_signup data => signup data
  | POST_login data => login data
  | POST_predict data => predict data
  | GET_status => health
  end.

(** The requests are handled one after the other on the globals the
    previous ones left. *)
Fixpoint serve (g : Globals) (requests : list request) : list (outcome reply) :=
  match requests with
  | [] => []
  | r :: rest => let '(o, g') := dispatch r g in o :: serve g' rest
  end.

(** The process: requests are answered only once the import succeeded. *)
Definition run (BASE_DIR : string) (fs : gmap string node) (requests : list request)
  : outcome (list (outcome reply)) :=
  match startup BASE_DIR fs with
  | (Raise e, _) => Raise e
  | (Return g, _) => Return (serve g requests)
  end.

(** ** The schema of the specification

    The specification names the 28 fields of a request, splits them into
    numeric and categorical ones, gives each categorical field its category
    map and fixes the order of the slots. These definitions follow the
    specification; the theorems below compare the code with them. *)

Inductive numeric_field : Type :=
  | Age | Weight | Height | Fat_percentage | Bmi_input
  | Session_duration | Workout_frequency | Max_bpm | Avg_bpm | Resting_bpm
  | Water_intake | Meals_frequency | Sugar_g | Sodium_mg | Cholesterol_mg
  | Serving_size_g | Prep_time_min | Cook_time_min | Rating
  | Experience_level | Physical_exercise.

Inductive category_field : Type :=
  | Gender | Workout_type | Difficulty | Body_part
  | Meal_type | Diet_type | Cooking_method.

#[global] Instance numeric_field_eq_dec : EqDecision numeric_field.
Proof. solve_decision. Defined.

#[global] Instance category_field_eq_dec : EqDecision category_field.
Proof. solve_decision. Defined.

Definition numeric_value (f : numeric_field) (data : PredictRequest) : option float :=
  match f with
  | Age => age data
  | Weight => weight data
  | Height => height data
  | Fat_percentage => fat_percentage data
  | Bmi_input => bmi_input data
  | Session_duration => session_duration data
  | Workout_frequency => workout_frequency data
  | Max_bpm => max_bpm data
  | Avg_bpm => avg_bpm data
  | Resting_bpm => resting_bpm data
  | Water_intake => water_intake data
  | Meals_frequency => meals_frequency data
  | Sugar_g => sugar_g data
  | Sodium_mg => sodium_mg data
  | Cholesterol_mg => cholesterol_mg data
  | Serving_size_g => serving_size_g data
  | Prep_time_min => prep_time_min data
  | Cook_time_min => cook_time_min data
  | Rating => rating data
  | Experience_level => experience_level data
  | Physical_exercise => physical_exercise data
  end.

Definition category_label (f : category_field) (data : PredictRequest) : option string :=
  match f with
  | Gender => gender data
  | Workout_type => workout_type data
  | Difficulty => difficulty data
  | Body_part => body_part data
  | Meal_type => meal_type data
  | Diet_type => diet_type data
  | Cooking_method => cooking_method data
  end.

(** The category map of each categorical field, as section 4.1 of the
    specification lists them. *)
Definition spec_category_items (f : category_field) : list (string * Z) :=
  match f with
  | Gender => [("male", 1); ("female", 2); ("other", 3)]
  | Workout_type => [("strength", 1); ("cardio", 2); ("flexibility", 3); ("other", 4)]
  | Difficulty => [("beginner", 1); ("intermediate", 2); ("advanced", 3)]
  | Body_part => [("core", 1); ("upper body", 2); ("lower body", 3);
                  ("full body", 4); ("other", 5)]
  | Meal_type => [("breakfast", 1); ("lunch", 2); ("dinner", 3); ("snack", 4)]
  | Diet_type => [("standard", 1); ("vegan", 2); ("keto", 3); ("paleo", 4);
                  ("mediterranean", 5)]
  | Cooking_method => [("baked", 1); ("boiled", 2); ("grilled", 3); ("fried", 4);
                       ("steamed", 5)]
  end.

(** The matching map of a categorical field: the map of the module that
    bears the field's name. *)
Definition category_map (f : category_field) : gmap string Z :=
  match f with
  | Gender => gender_map
  | Workout_type => workout_map
  | Difficulty => difficulty_map
  | Body_part => body_part_map
  | Meal_type => meal_map
  | Diet_type => diet_map
  | Cooking_method => cooking_map
  end.

Definition all_category_fields : list category_field :=
  [Gender; Workout_type; Difficulty; Body_part; Meal_type; Diet_type; Cooking_method].

(** The largest code of each category map. *)
Definition top_code (f : category_field) : Z :=
  match f with
  | Gender => 3
  | Workout_type => 4
  | Difficulty => 3
  | Body_part => 5
  | Meal_type => 4
  | Diet_type => 5
  | Cooking_method => 5
  end.

Inductive slot : Type :=
  | Numeric (f : numeric_field)
  | Category (f : category_field).

(** The order of the slots, as section 4.2 of the specification gives it. *)
Definition spec_slot_order : list slot := [
  Numeric Age; Category Gender; Numeric Weight; Numeric Height;
  Numeric Fat_percentage; Numeric Bmi_input; Category Workout_type;
  Numeric Session_duration; Numeric Workout_frequency; Numeric Max_bpm;
  Numeric Avg_bpm; Numeric Resting_bpm; Category Difficulty;
  Category Body_part; Category Meal_type; Category Diet_type;
  Category Cooking_method; Numeric Water_intake; Numeric Meals_frequency;
  Numeric Sugar_g; Numeric Sodium_mg; Numeric Cholesterol_mg;
  Numeric Serving_size_g; Numeric Prep_time_min; Numeric Cook_time_min;
  Numeric Rating; Numeric Experience_level; Numeric Physical_exercise
].



(** ** Sample inputs *)

Definition empty_request : PredictRequest := {|
  age := None; gender := None; weight := None; height := None;
  fat_percentage := None; bmi_input := None;
  workout_type := None; session_duration := None; workout_frequency := None;
  max_bpm := None; avg_bpm := None; resting_bpm := None;
  difficulty := None; body_part := None;
  meal_type := None; diet_type := None; cooking_method := None;
  water_intake := None; meals_frequency := None; sugar_g := None;
  sodium_mg := None; cholesterol_mg := None; serving_size_g := None;
  prep_time_min := None; cook_time_min := None; rating := None;
  experience_level := None; physical_exercise := None
|}.

(** The floats [65.0], [1.70] (the nearest double) and [1.0]. *)
Definition float_65 : float := S754_finite false 4573968371548160 (-46).
Definition float_1_70 : float := S754_finite false 7656119366529843 (-52).
Definition float_1 : float := S754_finite false 4503599627370496 (-52).
Definition float_0 : float := S754_zero false.
Definition float_neg_0 : float := S754_zero true.

(** The request of the end-to-end example of the specification. *)
Definition example_request : PredictRequest := {|
  age := None; gender := Some "Female"; weight := Some float_65;
  height := Some float_1_70;
  fat_percentage := None; bmi_input := None;
  workout_type := Some "cardio"; session_duration := Some float_1;
  workout_frequency := None;
  max_bpm := None; avg_bpm := None; resting_bpm := None;
  difficulty := None; body_part := None;
  meal_type := None; diet_type := None; cooking_method := None;
  water_intake := None; meals_frequency := None; sugar_g := None;
  sodium_mg := None; cholesterol_mg := None; serving_size_g := None;
  prep_time_min := None; cook_time_min := None; rating := None;
  experience_level := None; physical_exercise := None
|}.

(** The empty request but for an age of [0.0]. *)
Definition zero_age_request : PredictRequest := {|
  age := Some float_0; gender := None; weight := None; height := None;
  fat_percentage := None; bmi_input := None;
  workout_type := None; session_duration := None; workout_frequency := None;
  max_bpm := None; avg_bpm := None; resting_bpm := None;
  difficulty := None; body_part := None;
  meal_type := None; diet_type := None; cooking_method := None;
  water_intake := None; meals_frequency := None; sugar_g := None;
  sodium_mg := None; cholesterol_mg := None; serving_size_g := None;
  prep_time_min := None; cook_time_min := None; rating := None;
  experience_level := None; physical_exercise := None
|}.

(** An estimator that answers [y] for every row, one that returns an empty
    array, and one whose [predict] raises [e]. *)
Definition constant_model (y : float) : Estimator := fun X => Return (map (fun _ => y) X).
Definition silent_model : Estimator := fun _ => Return [].
Definition failing_model (e : exn) : Estimator := fun _ => Raise e.

Definition fresh_globals (m : Estimator) : Globals :=
  {| model := m; fake_users_db := ∅ |}.


(** ** The index page

    [serve_index] looks at the file system when the request comes in. It
    answers with the file itself, a [FileResponse], or with a plain
    [Response]. *)

Inductive index_reply : Type :=
  | FileResponse (path : string)
  | Plain (r : reply).

Definition serve_index (BASE_DIR : string) (fs : gmap string node) : index_reply :=
  if path_exists (INDEX_FILE BASE_DIR) fs
  then FileResponse (INDEX_FILE BASE_DIR)
  else Plain (Response "index1.html NOT FOUND inside /static" 404).

(** ** Notions used to state the properties *)

(** The globals the process is left with once the requests are handled. *)
Fixpoint serve_state (g : Globals) (requests : list request) : Globals :=
  match requests with
  | [] => g
  | r :: rest => serve_state (dispatch r g).2 rest
  end.

(** Every stored user dict has a password, a string. *)
Definition users_well_formed (g : Globals) : Prop :=
  ∀ em user, fake_users_db g !! em = Some user →
             ∃ p, user !! "password" = Some (VStr p).

(** A Python number. *)
Definition is_number (v : pyval) : bool :=
  match v with
  | VInt _ | VFloat _ => true
  | VNone | VStr _ => false
  end.

(** A request for the sign-up stub. *)
Definition auth_request (n : option string) (em pw : string) : AuthRequest :=
  {| name := n; email := em; password := pw |}.

(** The request of the example again, its labels in upper case and the
    age supplied as [-0.0]. *)
Definition shouted_request : PredictRequest := {|
  age := Some float_neg_0; gender := Some "FEMALE"; weight := Some float_65;
  height := Some float_1_70;
  fat_percentage := None; bmi_input := None;
  workout_type := Some "CARDIO"; session_duration := Some float_1;
  workout_frequency := None;
  max_bpm := None; avg_bpm := None; resting_bpm := None;
  difficulty := None; body_part := None;
  meal_type := None; diet_type := None; cooking_method := None;
  water_intake := None; meals_frequency := None; sugar_g := None;
  sodium_mg := None; cholesterol_mg := None; serving_size_g := None;
  prep_time_min := None; cook_time_min := None; rating := None;
  experience_level := None; physical_exercise := None
|}.

(** The file system start-up leaves behind: the static directory is
    created when nothing is there. *)
Definition after_makedirs (BASE_DIR : string) (fs : gmap string node) : gmap string node :=
  match fs !! STATIC_DIR BASE_DIR with
  | None => <[STATIC_DIR BASE_DIR := Directory]> fs
  | Some _ => fs
  end.

(** * The test script (text_save.py)

    [load_and_test_model] loads the pipeline, reads the test data or falls
    back on a synthetic row, drops the columns left out of training,
    predicts on the first row and prints a report. What [joblib.load] and
    [pd.read_csv] give are inputs of the embedding; the printed lines are
    its output. *)

#[global] Instance exn_class_eq_dec : EqDecision exn_class.
Proof. solve_decision. Defined.

(** A data frame: the column labels in order, and the rows, each a dict
    from label to cell. *)
Record DataFrame : Type := {
  columns : list string;
  rows : list (gmap string pyval)
}.

(** The loaded pipeline: only [predict] is used, on a frame. *)
Definition Pipeline : Type := DataFrame -> outcome (list float).

(** The script's monad: the lines printed so far go in, an outcome and
    the lines printed by then come out. *)
Definition IO (A : Type) : Type := list string -> outcome A * list string.

#[global] Instance IO_ret : MRet IO := fun A a out => (Return a, out).

#[global] Instance IO_bind : MBind IO := fun A B k c out =>
  match c out with
  | (Return a, out') => k a out'
  | (Raise e, out') => (Raise e, out')
  end.

Definition print (line : string) : IO unit := fun out => (Return tt, (out ++ [line])%list).

Definition io_raise {A : Type} (e : exn) : IO A := fun out => (Raise e, out).

(** An outcome computed without printing: the pandas and numpy calls. *)
Definition io_lift {A : Type} (o : outcome A) : IO A := fun out => (o, out).

Definition MODEL_PATH : string := "calories_predictor_model.joblib".
Definition TEST_DATA_PATH : string := "Newdata.csv".
Definition TARGET_COLUMN : string := "Calories_Burned".

(** [df[col].iloc[0]]: [KeyError] for a label the frame has not,
    [IndexError] for a frame without rows. A row built from a dict that
    lacks the label holds NaN there. *)
Definition column_iloc_0 (df : DataFrame) (col : string) : outcome pyval :=
  if bool_decide (col ∈ columns df) then
    match rows df with
    | row :: _ => Return (default (VFloat S754_nan) (row !! col))
    | [] => Raise (Exn IndexError "single positional indexer is out-of-bounds")
    end
  else Raise (Exn KeyError ("'" +:+ col +:+ "'")).

(** [df[cols]] for labels [cols] taken from [df.columns]. *)
Definition select_columns (df : DataFrame) (cols : list string) : DataFrame :=
  {| columns := cols;
     rows := (fun row => filter (fun kv : string * pyval => kv.1 ∈ cols) row) <$> rows df |}.

(** [df.iloc[[0]]] *)
Definition iloc_first_row (df : DataFrame) : outcome DataFrame :=
  match rows df with
  | row :: _ => Return {| columns := columns df; rows := [row] |}
  | [] => Raise (Exn IndexError "positional indexers are out-of-bounds")
  end.

(** [a[0]] on the array of predictions. *)
Definition first_prediction (a : list float) : outcome float :=
  match a with
  | x :: _ => Return x
  | [] => Raise (Exn IndexError "index 0 is out of bounds for axis 0 with size 0")
  end.

Definition f64 (m : positive) (e : Z) : float := S754_finite false m e.

(** The synthetic row, in the order of the dict literal. *)
Definition synthetic_items : list (string * pyval) := [
  ("Age", VFloat (f64 4925812092436480 (-47)));
  ("Gender", VStr "Male");
  ("Weight (kg)", VFloat (f64 4925812092436480 (-46)));
  ("Height (m)", VFloat (f64 7881299347898368 (-52)));
  ("Max_BPM", VFloat (f64 6333186975989760 (-45)));
  ("Avg_BPM", VFloat (f64 5277655813324800 (-45)));
  ("Resting_BPM", VFloat (f64 4573968371548160 (-46)));
  ("Session_Duration (hours)", VFloat (f64 6755399441055744 (-52)));
  ("Fat_Percentage", VFloat (f64 5629499534213120 (-48)));
  ("Water_Intake (liters)", VFloat (f64 6755399441055744 (-51)));
  ("Workout_Frequency (days/week)", VFloat (f64 4503599627370496 (-50)));
  ("Experience_Level", VFloat (f64 4503599627370496 (-51)));
  ("BMI", VFloat (f64 6434517967605596 (-48)));
  ("Daily meals frequency", VFloat (f64 6755399441055744 (-51)));
  ("Physical exercise", VFloat (f64 4503599627370496 (-52)));
  ("meal_type", VStr "Lunch");
  ("diet_type", VStr "Standard");
  ("sugar_g", VFloat (f64 5629499534213120 (-48)));
  ("sodium_mg", VFloat (f64 6597069766656000 (-42)));
  ("cholesterol_mg", VFloat (f64 7036874417766400 (-46)));
  ("serving_size_g", VFloat (f64 8796093022208000 (-45)));
  ("cooking_method", VStr "Boiled");
  ("prep_time_min", VFloat (f64 5629499534213120 (-49)));
  ("cook_time_min", VFloat (f64 5629499534213120 (-48)));
  ("rating", VFloat (f64 5066549580791808 (-50)));
  ("is_healthy", VFloat (f64 4503599627370496 (-52)));
  ("Difficulty Level", VStr "Beginner");
  ("Body Part", VStr "Core");
  ("Type of Muscle", VStr "Slow twitch");
  ("Workout", VStr "Planks");
  ("Name of Exercise", VStr "Squats");
  ("Sets", VInt 3);
  ("Reps", VInt 10);
  ("Benefit", VStr "Stronger Legs");
  ("Burns Calories (per 30 min)", VFloat (f64 5277655813324800 (-45)));
  ("Target Muscle Group", VStr "Quads");
  ("Equipment Needed", VStr "None");
  ("meal_name", VStr "Test Meal");
  ("Calories", VInt 2000);
  ("Carbs", VInt 200);
  ("Proteins", VInt 100);
  ("Fats", VInt 50);
  (TARGET_COLUMN, VInt 1000)
].

(** [pd.DataFrame([{...}])]: one row, the columns in the order of the
    keys. *)
Definition synthetic_df : DataFrame :=
  {| columns := synthetic_items.*1; rows := [dict_literal synthetic_items] |}.

Definition DROP_COLUMNS : list string := [
  "Name of Exercise"; "Sets"; "Reps"; "Benefit";
  "Burns Calories (per 30 min)"; "Target Muscle Group"; "Equipment Needed";
  "Type of Muscle"; "Workout"; "meal_name"; "is_healthy";
  "BMI_calc"; "cal_from_macros"; "Burns Calories (per 30 min)_bc";
  "cal_balance"; "lean_mass_kg"; "expected_burn";
  "Calories"; "Carbs"; "Proteins"; "Fats"; TARGET_COLUMN
].

(** [[col for col in test_df.columns if col not in DROP_COLUMNS]] *)
Definition features_to_keep (test_df : DataFrame) : list string :=
  filter (fun col => col ∉ DROP_COLUMNS) (columns test_df).

Definition X_test_sample (test_df : DataFrame) : DataFrame :=
  select_columns test_df (features_to_keep test_df).

Definition rule : string := "------------------------------------------".

Section LoadAndTest.
(** What an f-string makes of a value: [f"{v}"], and [f"{v:.2f}"] for a
    float and for an int. *)
Variable format_value : pyval -> string.
Variable format_2f : float -> string.
Variable format_2f_int : Z -> string.

(** The report, from [print("\n3. ...")] to the end of the function. *)
Definition predict_and_report
    (full_pipeline_loaded : Pipeline) (test_df : DataFrame) (y_true : pyval) : IO unit :=
  print (String "010"%char "3. Making prediction on the test sample...");;
  row ← io_lift (iloc_first_row (X_test_sample test_df));
  preds ← io_lift (full_pipeline_loaded row);
  predicted_calories ← io_lift (first_prediction preds);
  print rule;;
  print "   Test Sample Data Point:";;
  gender ← io_lift (column_iloc_0 (X_test_sample test_df) "Gender");
  weight ← io_lift (column_iloc_0 (X_test_sample test_df) "Weight (kg)");
  print ("   Gender: " +:+ format_value gender +:+ ", Weight: "
         +:+ format_value weight +:+ " kg");;
  workout_type ← io_lift (column_iloc_0 (X_test_sample test_df) "Workout_Type");
  duration ← io_lift (column_iloc_0 (X_test_sample test_df) "Session_Duration (hours)");
  print ("   Workout Type: " +:+ format_value workout_type +:+ ", Duration: "
         +:+ format_value duration +:+ " hours");;
  print rule;;
  print ("   🔥 Predicted Calories Burned: " +:+ format_2f predicted_calories);;
  match y_true with
  | VNone => mret tt
  | VFloat x => print ("   Actual Calories Burned: " +:+ format_2f x)
  | VInt n => print ("   Actual Calories Burned: " +:+ format_2f_int n)
  | VStr _ => io_raise (Exn ValueError "Unknown format code 'f' for object of type 'str'")
  end;;
  print rule.

(** [loaded] is what [joblib.load(MODEL_PATH)] gives and [csv] what
    [pd.read_csv(TEST_DATA_PATH)] gives. *)
Definition load_and_test_model (loaded : outcome Pipeline) (csv : outcome DataFrame)
  : IO unit :=
  print ("1. Loading the trained model from " +:+ MODEL_PATH +:+ "...");;
  match loaded with
  | Raise e =>
      if bool_decide (exn_cls e = FileNotFoundError)
      then print ("Error: Model file " +:+ MODEL_PATH
                  +:+ " not found. Please run app.py first.")
      else io_raise e
  | Return full_pipeline_loaded =>
      print "   -> Model loaded successfully.";;
      print ("2. Loading test data from " +:+ TEST_DATA_PATH +:+ "...");;
      test_df ← match csv with
                | Return df => mret df
                | Raise e =>
                    if bool_decide (exn_cls e = FileNotFoundError)
                    then print ("Error: " +:+ TEST_DATA_PATH
                                +:+ " not found. Using a synthetic test sample instead.");;
                         mret synthetic_df
                    else io_raise e
                end;
      y_true ← (if bool_decide (TARGET_COLUMN ∈ columns test_df)
                then io_lift (column_iloc_0 test_df TARGET_COLUMN)
                else mret VNone);
      predict_and_report full_pipeline_loaded test_df y_true
  end.
End LoadAndTest.

(** ** More sample inputs *)

(** A file system that holds the model file and nothing else, and one
    where a directory sits at the model path. *)
Definition model_only_fs : gmap string node :=
  {[ MODEL_FILE "/srv/fittrack" := File (Return (constant_model float_1)) ]}.

(** A frame with the four columns the report shows and one dropped
    column, and a pipeline that answers [1.0]. *)
Definition sample_df : DataFrame :=
  {| columns := ["Gender"; "Weight (kg)"; "Workout_Type";
                 "Session_Duration (hours)"; "Calories"];
     rows := [dict_literal [("Gender", VStr "Female");
                            ("Weight (kg)", VFloat float_65);
                            ("Workout_Type", VStr "Cardio");
                            ("Session_Duration (hours)", VFloat float_1);
                            ("Calories", VInt 2000)]] |}.
Definition sample_pipeline : Pipeline := fun _ => Return [float_1].

(** Stand-ins for the f-string formats. *)
Definition sample_format (v : pyval) : string :=
  match v with
  | VStr s => s
  | _ => "<number>"
  end.
Definition sample_format_2f (x : float) : string := "<float>".
Definition sample_format_2f_int (n : Z) : string := "<int>".

(** * Properties *)

(** ** Case mapping *)

Lemma lower_char_upper_char (c : ascii) : lower_char (upper_char c) = lower_char c.
Proof. destruct c as [[] [] [] [] [] [] [] []]; reflexivity. Qed.

Lemma lower_upper (s : string) : lower (upper s) = lower s.
Proof.
  induction s as [|c s IH]; simpl.
  - reflexivity.
  - rewrite lower_char_upper_char, IH. reflexivity.
Qed.

(** ** Dict literals *)

Section DictLiteral.
Context {V : Type}.
Implicit Types (items : list (string * V)) (k : string) (v : V).

Lemma dict_literal_snoc items k v :
  dict_literal (items ++ [(k, v)]) = <[k := v]> (dict_literal items).
Proof. unfold dict_literal. rewrite foldl_app. reflexivity. Qed.

(** With distinct keys, the dict holds the items of the literal and
    nothing else. *)
Lemma dict_literal_lookup items k v :
  NoDup items.*1 → dict_literal items !! k = Some v ↔ (k, v) ∈ items.
Proof.
  induction items as [|[k' v'] items IH] using rev_ind; intros Hnd.
  - unfold dict_literal; simpl. rewrite lookup_empty. split; [discriminate|].
    intros H; inversion H.
  - rewrite fmap_app in Hnd. apply NoDup_app in Hnd as (Hnd & Hfresh & _).
    rewrite dict_literal_snoc, elem_of_app, list_elem_of_singleton.
    destruct (decide (k' = k)) as [->|Hne].
    + rewrite lookup_insert_eq. split.
      * intros [= ->]. right; reflexivity.
      * intros [Hin|[= ->]]; [|reflexivity].
        exfalso. apply (Hfresh k); [|simpl; left].
        apply list_elem_of_fmap. exists (k, v). split; [reflexivity|exact Hin].
    + rewrite lookup_insert_ne by exact Hne. rewrite (IH Hnd). split.
      * intros Hin; left; exact Hin.
      * intros [Hin|[= -> _]]; [exact Hin|congruence].
Qed.

Lemma dict_literal_lookup_None items k :
  dict_literal items !! k = None ↔ k ∉ items.*1.
Proof.
  induction items as [|[k' v'] items IH] using rev_ind.
  - unfold dict_literal; simpl. rewrite lookup_empty. split; [|reflexivity].
    intros _ H; inversion H.
  - rewrite dict_literal_snoc, fmap_app, elem_of_app; simpl.
    rewrite list_elem_of_singleton.
    destruct (decide (k' = k)) as [->|Hne].
    + rewrite lookup_insert_eq. split; [discriminate|]. intros H; destruct H; right; reflexivity.
    + rewrite lookup_insert_ne by exact Hne. rewrite IH. split.
      * intros Hn [Hin| ->]; [exact (Hn Hin)|congruence].
      * intros Hn Hin. apply Hn. left; exact Hin.
Qed.
End DictLiteral.

(** ** Running handler code *)

Lemma bind_run {A B : Type} (c : M A) (k : A → M B) (g g' : Globals) (a : A) :
  c g = (Return a, g') → (c ≫= k) g = k a g'.
Proof. intros H. unfold mbind, M_bind. rewrite H. reflexivity. Qed.

Lemma encode_run (category : option string) (mapping : gmap string Z) (g : Globals) :
  encode category mapping g = (Return (code_of category mapping), g).
Proof. destruct category; reflexivity. Qed.

Lemma predict_features_run (data : PredictRequest) (g : Globals) :
  predict_features data g =
  (Return [
     or_0 (age data); VInt (code_of (gender data) gender_map);
     or_0 (weight data); or_0 (height data);
     or_0 (fat_percentage data); or_0 (bmi_input data);
     VInt (code_of (workout_type data) workout_map);
     or_0 (session_duration data);
     or_0 (workout_frequency data); or_0 (max_bpm data);
     or_0 (avg_bpm data); or_0 (resting_bpm data);
     VInt (code_of (difficulty data) difficulty_map);
     VInt (code_of (body_part data) body_part_map);
     VInt (code_of (meal_type data) meal_map);
     VInt (code_of (diet_type data) diet_map);
     VInt (code_of (cooking_method data) cooking_map);
     or_0 (water_intake data); or_0 (meals_frequency data);
     or_0 (sugar_g data); or_0 (sodium_mg data);
     or_0 (cholesterol_mg data); or_0 (serving_size_g data);
     or_0 (prep_time_min data); or_0 (cook_time_min data);
     or_0 (rating data);
     or_0 (experience_level data); or_0 (physical_exercise data)], g).
Proof.
  unfold predict_features.
  do 7 (erewrite bind_run by apply encode_run).
  reflexivity.
Qed.

(** ** The category encoder *)

(** C2. [encode] never raises and leaves the globals alone; it returns 0
    for an absent label, the map's code of the lower-cased label when that
    is a key of the map, and 0 when it is not. *)
Theorem encode_spec (category : option string) (mapping : gmap string Z) (g : Globals) :
  ∃ code : Z,
    encode category mapping g = (Return code, g) ∧
    match category with
    | None => code = 0
    | Some label =>
        match mapping !! lower label with
        | Some c => code = c
        | None => code = 0
        end
    end.
Proof.
  exists (code_of category mapping). split; [apply encode_run|].
  destruct category as [label|]; simpl; [|reflexivity].
  destruct (mapping !! lower label); reflexivity.
Qed.

Lemma NoDup_keys (f : category_field) : NoDup (spec_category_items f).*1.
Proof. destruct f; refine (bool_decide_unpack _ _); vm_compute; exact I. Qed.

Lemma category_map_literal (f : category_field) :
  category_map f = dict_literal (spec_category_items f).
Proof. destruct f; reflexivity. Qed.

Lemma category_map_lookup (f : category_field) (label : string) (code : Z) :
  category_map f !! label = Some code ↔ (label, code) ∈ spec_category_items f.
Proof. rewrite category_map_literal. apply dict_literal_lookup, NoDup_keys. Qed.

(** C3. There are seven category maps, one per categorical field, and each
    holds exactly the labels and codes the specification lists. *)
Theorem category_maps_contents :
  (∀ f : category_field, f ∈ all_category_fields) ∧
  NoDup all_category_fields ∧
  length all_category_fields = 7%nat ∧
  (∀ label code,
     gender_map !! label = Some code ↔
     (label, code) ∈ [("male", 1); ("female", 2); ("other", 3)]) ∧
  (∀ label code,
     workout_map !! label = Some code ↔
     (label, code) ∈ [("strength", 1); ("cardio", 2); ("flexibility", 3);
                      ("other", 4)]) ∧
  (∀ label code,
     difficulty_map !! label = Some code ↔
     (label, code) ∈ [("beginner", 1); ("intermediate", 2); ("advanced", 3)]) ∧
  (∀ label code,
     body_part_map !! label = Some code ↔
     (label, code) ∈ [("core", 1); ("upper body", 2); ("lower body", 3);
                      ("full body", 4); ("other", 5)]) ∧
  (∀ label code,
     meal_map !! label = Some code ↔
     (label, code) ∈ [("breakfast", 1); ("lunch", 2); ("dinner", 3);
                      ("snack", 4)]) ∧
  (∀ label code,
     diet_map !! label = Some code ↔
     (label, code) ∈ [("standard", 1); ("vegan", 2); ("keto", 3); ("paleo", 4);
                      ("mediterranean", 5)]) ∧
  (∀ label code,
     cooking_map !! label = Some code ↔
     (label, code) ∈ [("baked", 1); ("boiled", 2); ("grilled", 3); ("fried", 4);
                      ("steamed", 5)]).
Proof.
  split; [intros []; unfold all_category_fields; set_solver|].
  split; [refine (bool_decide_unpack _ _); vm_compute; exact I|].
  split; [reflexivity|].
  split; [exact (category_map_lookup Gender)|].
  split; [exact (category_map_lookup Workout_type)|].
  split; [exact (category_map_lookup Difficulty)|].
  split; [exact (category_map_lookup Body_part)|].
  split; [exact (category_map_lookup Meal_type)|].
  split; [exact (category_map_lookup Diet_type)|].
  exact (category_map_lookup Cooking_method).
Qed.

(** The encoder agrees on a label and on its upper-cased form, whatever
    the label and the map. *)
Lemma encode_upper (mapping : gmap string Z) (L : string) (g : Globals) :
  encode (Some (upper L)) mapping g = encode (Some L) mapping g.
Proof. unfold encode, str. rewrite lower_upper. reflexivity. Qed.



(** On the seven maps of the module a known label, in upper case, still
    gets its code. *)
Lemma encode_known_upper (f : category_field) (L : string) (code : Z) (g : Globals) :
  (L, code) ∈ spec_category_items f →
  encode (Some (upper L)) (category_map f) g = (Return code, g).
Proof.
  intros Hin. rewrite encode_upper, encode_run. unfold code_of; simpl.
  assert (Hlow : lower L = L).
  { destruct f; simpl in Hin;
      repeat (apply elem_of_cons in Hin as [[= -> _]|Hin]; [reflexivity|]);
      inversion Hin. }
  rewrite Hlow. apply category_map_lookup in Hin. rewrite Hin. reflexivity.
Qed.

(** On the seven maps a label whose lower-cased form is not listed, an
    extra space included, gets 0. *)
Lemma encode_unknown (f : category_field) (label : string) (g : Globals) :
  lower label ∉ (spec_category_items f).*1 →
  encode (Some label) (category_map f) g = (Return 0, g).
Proof.
  intros Hnot. rewrite encode_run. unfold code_of; simpl.
  rewrite category_map_literal.
  apply dict_literal_lookup_None in Hnot. rewrite Hnot. reflexivity.
Qed.

Example encode_trailing_space (g : Globals) :
  encode (Some "male ") gender_map g = (Return 0, g).
Proof. reflexivity. Qed.

(** ** The feature list *)





(** The end-to-end example of the specification: what [predict] hands to
    the estimator for that request. *)
Example predict_features_example (g : Globals) :
  predict_features example_request g =
  (Return [VInt 0; VInt 2; VFloat float_65; VFloat float_1_70; VInt 0; VInt 0;
           VInt 2; VFloat float_1; VInt 0; VInt 0; VInt 0; VInt 0; VInt 0;
           VInt 0; VInt 0; VInt 0; VInt 0; VInt 0; VInt 0; VInt 0; VInt 0;
           VInt 0; VInt 0; VInt 0; VInt 0; VInt 0; VInt 0; VInt 0], g).
Proof. rewrite predict_features_run. reflexivity. Qed.

Example encode_alien (g : Globals) : encode (Some "Alien") gender_map g = (Return 0, g).
Proof. reflexivity. Qed.

(** C4. The feature list has 28 slots whatever the request, and the empty
    request gives 28 zeros. *)
Theorem predict_features_length (data : PredictRequest) (g : Globals) :
  (∃ features : list pyval,
     predict_features data g = (Return features, g) ∧ length features = 28%nat) ∧
  predict_features empty_request g = (Return (replicate 28 (VInt 0)), g).
Proof.
  split.
  - eexists. split; [apply predict_features_run|reflexivity].
  - rewrite predict_features_run. reflexivity.
Qed.

Lemma category_items_range (f : category_field) :
  Forall (fun kv : string * Z => 1 ≤ kv.2 ≤ top_code f) (spec_category_items f).
Proof. destruct f; simpl; repeat constructor; simpl; lia. Qed.

Lemma top_code_size (f : category_field) :
  top_code f = Z.of_nat (size (category_map f)).
Proof. destruct f; vm_compute; reflexivity. Qed.

Lemma code_of_range (category : option string) (f : category_field) :
  0 ≤ code_of category (category_map f) ≤ top_code f.
Proof.
  assert (Htop : 0 ≤ top_code f) by (destruct f; simpl; lia).
  destruct category as [label|]; simpl; [|lia].
  destruct (category_map f !! lower label) as [code|] eqn:Hl; simpl; [|lia].
  apply category_map_lookup in Hl.
  pose proof (category_items_range f) as Hall.
  rewrite Forall_forall in Hall. specialize (Hall _ Hl). simpl in Hall. lia.
Qed.

(** C9. Wherever the order of the specification has a categorical slot,
    the feature list holds an integer between 0 and the size of that
    field's map, which is the map's largest code. *)
Theorem categorical_slots_in_range (data : PredictRequest) (g : Globals) :
  ∃ features : list pyval,
    predict_features data g = (Return features, g) ∧
    ∀ (i : nat) (f : category_field),
      spec_slot_order !! i = Some (Category f) →
      ∃ code : Z,
        features !! i = Some (VInt code) ∧
        0 ≤ code ≤ Z.of_nat (size (category_map f)) ∧
        Z.of_nat (size (category_map f)) = top_code f.
Proof.
  eexists. split; [apply predict_features_run|].
  intros i f Hi.
  do 28 (destruct i as [|i];
         [ simpl in Hi;
           first
             [ discriminate Hi
             | injection Hi as <-; eexists; split; [reflexivity|];
               rewrite <- top_code_size;
               match goal with
               | |- _ ≤ _ ≤ top_code ?f ∧ _ =>
                   split; [exact (code_of_range _ f)|reflexivity]
               end ]
         | ]).
  discriminate Hi.
Qed.

(** Every code from 0 to the top one is reached, so the ranges are tight. *)
Lemma top_code_reached (f : category_field) :
  ∃ label, code_of (Some label) (category_map f) = top_code f.
Proof.
  destruct f;
    [ exists "OTHER" | exists "Other" | exists "Advanced" | exists "other"
    | exists "SNACK" | exists "Mediterranean" | exists "steamed" ];
    reflexivity.
Qed.

(** The feature list depends on the request only through the labels and
    through [x or 0] of the numeric fields. *)
Lemma predict_features_ext (d1 d2 : PredictRequest) (g : Globals) :
  (∀ f, or_0 (numeric_value f d1) = or_0 (numeric_value f d2)) →
  (∀ c, category_label c d1 = category_label c d2) →
  predict_features d1 g = predict_features d2 g.
Proof.
  intros Hn Hc. rewrite !predict_features_run.
  pose proof (Hn Age); pose proof (Hn Weight); pose proof (Hn Height);
  pose proof (Hn Fat_percentage); pose proof (Hn Bmi_input);
  pose proof (Hn Session_duration); pose proof (Hn Workout_frequency);
  pose proof (Hn Max_bpm); pose proof (Hn Avg_bpm); pose proof (Hn Resting_bpm);
  pose proof (Hn Water_intake); pose proof (Hn Meals_frequency);
  pose proof (Hn Sugar_g); pose proof (Hn Sodium_mg);
  pose proof (Hn Cholesterol_mg); pose proof (Hn Serving_size_g);
  pose proof (Hn Prep_time_min); pose proof (Hn Cook_time_min);
  pose proof (Hn Rating); pose proof (Hn Experience_level);
  pose proof (Hn Physical_exercise).
  pose proof (Hc Gender); pose proof (Hc Workout_type); pose proof (Hc Difficulty);
  pose proof (Hc Body_part); pose proof (Hc Meal_type); pose proof (Hc Diet_type);
  pose proof (Hc Cooking_method).
  simpl in *. congruence.
Qed.

(** C10. A numeric field supplied as [0.0] gives the same feature list as
    the same field left out, everything else being equal. *)
Theorem explicit_zero_is_absent
    (with_zero without : PredictRequest) (f : numeric_field) (g : Globals) :
  numeric_value f with_zero = Some float_0 →
  numeric_value f without = None →
  (∀ f', f' ≠ f → numeric_value f' with_zero = numeric_value f' without) →
  (∀ c, category_label c with_zero = category_label c without) →
  predict_features with_zero g = predict_features without g.
Proof.
  intros Hz Ha Hothers Hlabels. apply predict_features_ext; [|exact Hlabels].
  intros f'. destruct (decide (f' = f)) as [->|Hne].
  - rewrite Hz, Ha. reflexivity.
  - rewrite (Hothers f' Hne). reflexivity.
Qed.

Lemma explicit_zero_is_absent_witness :
  predict_features zero_age_request (fresh_globals silent_model)
  = predict_features empty_request (fresh_globals silent_model).
Proof.
  apply (explicit_zero_is_absent zero_age_request empty_request Age).
  - reflexivity.
  - reflexivity.
  - intros [] Hne; first [reflexivity | contradiction Hne; reflexivity].
  - intros []; reflexivity.
Defined.

(** The same holds of the negative zero. *)
Lemma negative_zero_is_absent : or_0 (Some float_neg_0) = or_0 None.
Proof. reflexivity. Qed.

(** C6. [encode] and the construction of the feature list are pure: run
    on any two states of the globals they return the same value, raise
    nothing and leave the globals as they found them. *)
Theorem encode_and_features_pure :
  (∀ (category : option string) (mapping : gmap string Z) (g1 g2 : Globals),
     ∃ code : Z,
       encode category mapping g1 = (Return code, g1) ∧
       encode category mapping g2 = (Return code, g2)) ∧
  (∀ (data : PredictRequest) (g1 g2 : Globals),
     ∃ features : list pyval,
       predict_features data g1 = (Return features, g1) ∧
       predict_features data g2 = (Return features, g2)).
Proof.
  split.
  - intros category mapping g1 g2. eexists. split; apply encode_run.
  - intros data g1 g2. eexists. split; apply predict_features_run.
Qed.

(** ** The predict handler *)

(** What the [try] block does, case by case on what the estimator does
    with the one row built from the request. *)
Lemma predict_try_run (data : PredictRequest) (g : Globals) (features : list pyval) :
  predict_features data g = (Return features, g) →
  predict_try data g =
  match model g [features] with
  | Return (pred :: _) => (Return (Dict {[ "predicted_calories" := VFloat pred ]}), g)
  | Return [] =>
      (Raise (Exn IndexError "index 0 is out of bounds for axis 0 with size 0"), g)
  | Raise e => (Raise e, g)
  end.
Proof.
  intros Hf. unfold predict_try.
  rewrite (bind_run _ _ g g features Hf).
  unfold mbind, M_bind, model_predict.
  destruct (model g [features]) as [[|pred preds]|e]; reflexivity.
Qed.




Example predict_example_reply :
  predict example_request (fresh_globals (constant_model float_1))
  = (Return (Dict {[ "predicted_calories" := VFloat float_1 ]}),
     fresh_globals (constant_model float_1)).
Proof.
  unfold predict, try_except_Exception.
  erewrite predict_try_run by apply predict_features_run. reflexivity.
Qed.

Example predict_example_error :
  predict example_request (fresh_globals (failing_model (Exn ValueError "X has 28 features")))
  = (Return (Dict {[ "error" := VStr "X has 28 features" ]}),
     fresh_globals (failing_model (Exn ValueError "X has 28 features"))).
Proof.
  unfold predict, try_except_Exception.
  erewrite predict_try_run by apply predict_features_run. reflexivity.
Qed.

(** ** Start-up *)

Lemma append_inj_r (p x y : string) : p +:+ x = p +:+ y → x = y.
Proof.
  induction p as [|c p IH]; simpl; intros H; [exact H|].
  injection H as H. exact (IH H).
Qed.

Lemma MODEL_FILE_ne_STATIC_DIR (BASE_DIR : string) :
  STATIC_DIR BASE_DIR ≠ MODEL_FILE BASE_DIR.
Proof.
  unfold STATIC_DIR, MODEL_FILE, path_join.
  destruct (bool_decide (BASE_DIR = "") || ends_with_sep BASE_DIR);
    intros H; apply append_inj_r in H; discriminate H.
Qed.

(** C8. When the model file is absent the import of the module raises,
    and a process that never finished the import answers no request:
    there are no replies at all, let alone a placeholder prediction. The
    exception is the [FileNotFoundError] of the explicit check, unless
    creating the static directory already failed. *)
Theorem startup_without_model
    (BASE_DIR : string) (fs : gmap string node) (requests : list request) :
  fs !! MODEL_FILE BASE_DIR = None →
  ∃ e : exn,
    (startup BASE_DIR fs).1 = Raise e ∧
    run BASE_DIR fs requests = Raise e ∧
    (e = Exn FileNotFoundError "Model file missing: calories_predictor_model.joblib"
     ∨ e = Exn FileExistsError (STATIC_DIR BASE_DIR)).
Proof.
  intros Hmissing. unfold run, startup, makedirs_exist_ok, path_exists.
  destruct (fs !! STATIC_DIR BASE_DIR) as [[|unpickled]|] eqn:Hstatic.
  - rewrite Hmissing. rewrite bool_decide_eq_false_2 by (intros [? [=]]).
    simpl. eexists. split; [reflexivity|]. split; [reflexivity|]. left; reflexivity.
  - eexists. split; [reflexivity|]. split; [reflexivity|]. right; reflexivity.
  - rewrite lookup_insert_ne by apply MODEL_FILE_ne_STATIC_DIR.
    rewrite Hmissing. rewrite bool_decide_eq_false_2 by (intros [? [=]]).
    simpl. eexists. split; [reflexivity|]. split; [reflexivity|]. left; reflexivity.
Qed.

Lemma startup_without_model_witness :
  (∅ : gmap string node) !! MODEL_FILE "/srv/fittrack" = None ∧
  ∃ e : exn,
    (startup "/srv/fittrack" ∅).1 = Raise e ∧
    run "/srv/fittrack" ∅ [POST_predict empty_request] = Raise e ∧
    (e = Exn FileNotFoundError "Model file missing: calories_predictor_model.joblib"
     ∨ e = Exn FileExistsError (STATIC_DIR "/srv/fittrack")).
Proof.
  split; [reflexivity|].
  apply (startup_without_model "/srv/fittrack" ∅ [POST_predict empty_request]).
  reflexivity.
Defined.

(** With the model file in place and readable the import succeeds, and
    the estimator the handlers use is the one the file holds. *)
Lemma startup_with_model (BASE_DIR : string) (fs : gmap string node) (m : Estimator) :
  fs !! MODEL_FILE BASE_DIR = Some (File (Return m)) →
  (∀ u, fs !! STATIC_DIR BASE_DIR ≠ Some (File u)) →
  (startup BASE_DIR fs).1 = Return (fresh_globals m).
Proof.
  intros Hfile Hstatic. unfold startup, makedirs_exist_ok, path_exists, joblib_load.
  destruct (fs !! STATIC_DIR BASE_DIR) as [[|u]|] eqn:Hs.
  - rewrite Hfile. rewrite bool_decide_eq_true_2 by (eexists; reflexivity).
    reflexivity.
  - exfalso. exact (Hstatic u eq_refl).
  - rewrite lookup_insert_ne by apply MODEL_FILE_ne_STATIC_DIR.
    rewrite Hfile. rewrite bool_decide_eq_true_2 by (eexists; reflexivity).
    reflexivity.
Qed.

(** * Further properties of the code *)

(** ** The fake auth store *)

Lemma dict_literal_not_empty {V : Type} (items : list (string * V)) (k : string) (v : V) :
  dict_literal (items ++ [(k, v)]) ≠ ∅.
Proof.
  rewrite dict_literal_snoc. intros H.
  apply (f_equal (fun d => d !! k)) in H.
  rewrite lookup_insert_eq, lookup_empty in H. discriminate H.
Qed.

(** What [signup] does to the globals when the e-mail is new. *)
Lemma signup_new (data : AuthRequest) (g : Globals) :
  fake_users_db g !! email data = None →
  signup data g =
  (Return (Dict {[ "message" := VStr "Signup successful" ]}),
   {| model := model g;
      fake_users_db :=
        <[email data :=
            dict_literal [("name", from_option VStr VNone (name data));
                          ("password", VStr (password data))]]>
          (fake_users_db g) |}).
Proof. intros Hnew. unfold signup. rewrite Hnew. reflexivity. Qed.

Lemma signup_taken (data : AuthRequest) (g : Globals) (user : gmap string pyval) :
  fake_users_db g !! email data = Some user →
  signup data g = (Return (Dict {[ "error" := VStr "User already exists" ]}), g).
Proof. intros Htaken. unfold signup. rewrite Htaken. reflexivity. Qed.

(** What [login] answers when the stored user has a password. *)
Lemma login_stored (data : AuthRequest) (g : Globals) (user : gmap string pyval) (p : pyval) :
  fake_users_db g !! email data = Some user →
  user !! "password" = Some p →
  login data g =
  (Return (Dict (if decide (p = VStr (password data))
                 then {[ "message" := VStr "Login successful" ]}
                 else {[ "error" := VStr "Invalid credentials" ]})), g).
Proof.
  intros Huser Hp. unfold login. rewrite Huser.
  destruct (decide (user = ∅)) as [->|_].
  - rewrite lookup_empty in Hp. discriminate Hp.
  - rewrite Hp. destruct (decide (p = VStr (password data))); reflexivity.
Qed.

(** X1. After a sign-up with a new e-mail, a login with that e-mail
    succeeds when the password is the one signed up with, and is refused
    as "Invalid credentials" when it is any other; the name plays no
    part. *)
Theorem login_after_signup (new attempt : AuthRequest) (g : Globals) :
  fake_users_db g !! email new = None →
  email attempt = email new →
  login attempt (signup new g).2 =
  (Return (Dict (if decide (password attempt = password new)
                 then {[ "message" := VStr "Login successful" ]}
                 else {[ "error" := VStr "Invalid credentials" ]})),
   (signup new g).2).
Proof.
  intros Hnew Hmail. rewrite (signup_new new g Hnew). simpl.
  erewrite login_stored; simpl.
  - destruct (decide (password attempt = password new)) as [->|Hne].
    + rewrite decide_True by reflexivity. reflexivity.
    + rewrite decide_False by congruence. reflexivity.
  - rewrite Hmail. apply lookup_insert_eq.
  - reflexivity.
Qed.

Lemma login_after_signup_witness :
  login (auth_request None "ann@example.org" "s3cret")
    (signup (auth_request (Some "Ann") "ann@example.org" "s3cret")
       (fresh_globals silent_model)).2
  = (Return (Dict {[ "message" := VStr "Login successful" ]}),
     (signup (auth_request (Some "Ann") "ann@example.org" "s3cret")
        (fresh_globals silent_model)).2).
Proof.
  exact (login_after_signup
           (auth_request (Some "Ann") "ann@example.org" "s3cret")
           (auth_request None "ann@example.org" "s3cret")
           (fresh_globals silent_model) eq_refl eq_refl).
Defined.

(** X2. A second sign-up with an e-mail that is already registered is
    refused and changes nothing: the password first signed up with stays
    the one in force. *)
Theorem signup_twice (first second : AuthRequest) (g : Globals) :
  fake_users_db g !! email first = None →
  email second = email first →
  signup second (signup first g).2 =
  (Return (Dict {[ "error" := VStr "User already exists" ]}), (signup first g).2).
Proof.
  intros Hnew Hmail. rewrite (signup_new first g Hnew). simpl.
  eapply signup_taken. simpl. rewrite Hmail. apply lookup_insert_eq.
Qed.

Lemma signup_twice_witness :
  signup (auth_request None "ann@example.org" "other")
    (signup (auth_request (Some "Ann") "ann@example.org" "s3cret")
       (fresh_globals silent_model)).2
  = (Return (Dict {[ "error" := VStr "User already exists" ]}),
     (signup (auth_request (Some "Ann") "ann@example.org" "s3cret")
        (fresh_globals silent_model)).2).
Proof.
  exact (signup_twice
           (auth_request (Some "Ann") "ann@example.org" "s3cret")
           (auth_request None "ann@example.org" "other")
           (fresh_globals silent_model) eq_refl eq_refl).
Defined.

Lemma signup_users_other (data : AuthRequest) (g : Globals) (em : string) :
  em ≠ email data →
  fake_users_db (signup data g).2 !! em = fake_users_db g !! em.
Proof.
  intros Hne. unfold signup.
  destruct (fake_users_db g !! email data); simpl; [reflexivity|].
  apply lookup_insert_ne. congruence.
Qed.

Lemma login_users_only (data : AuthRequest) (g1 g2 : Globals) :
  fake_users_db g1 !! email data = fake_users_db g2 !! email data →
  (login data g1).1 = (login data g2).1.
Proof.
  intros Hsame. unfold login. rewrite Hsame.
  destruct (fake_users_db g2 !! email data) as [user|]; [|reflexivity].
  destruct (decide (user = ∅)); [reflexivity|].
  destruct (user !! "password") as [p|]; [|reflexivity].
  destruct (decide (p = VStr (password data))); reflexivity.
Qed.

(** X3. A sign-up touches the entry of its own e-mail only: a login with
    any other e-mail gets the same answer after it as before it. *)
Theorem signup_leaves_other_logins (new attempt : AuthRequest) (g : Globals) :
  email attempt ≠ email new →
  (login attempt (signup new g).2).1 = (login attempt g).1.
Proof.
  intros Hne. apply login_users_only. apply signup_users_other. exact Hne.
Qed.

Lemma signup_leaves_other_logins_witness :
  (login (auth_request None "bob@example.org" "pw")
     (signup (auth_request None "ann@example.org" "s3cret")
        (fresh_globals silent_model)).2).1
  = (login (auth_request None "bob@example.org" "pw") (fresh_globals silent_model)).1.
Proof.
  apply (signup_leaves_other_logins
           (auth_request None "ann@example.org" "s3cret")
           (auth_request None "bob@example.org" "pw")).
  simpl. discriminate.
Defined.

(** ** What the handlers do to the globals *)

Lemma login_globals (data : AuthRequest) (g : Globals) : (login data g).2 = g.
Proof.
  unfold login. destruct (fake_users_db g !! email data) as [user|]; [|reflexivity].
  destruct (decide (user = ∅)); [reflexivity|].
  destruct (user !! "password") as [p|]; [|reflexivity].
  destruct (decide (p = VStr (password data))); reflexivity.
Qed.

Lemma predict_globals (data : PredictRequest) (g : Globals) : (predict data g).2 = g.
Proof.
  unfold predict, try_except_Exception.
  rewrite (predict_try_run data g _ (predict_features_run data g)).
  destruct (model g _) as [[|pred preds]|e]; simpl; try reflexivity.
  destruct (is_Exception (exn_cls e)); reflexivity.
Qed.

Lemma dispatch_globals (r : request) (g : Globals) :
  (dispatch r g).2 = g ∨
  ∃ data, r = POST_signup data ∧ fake_users_db g !! email data = None ∧
          (dispatch r g).2 =
          {| model := model g;
             fake_users_db :=
               <[email data :=
                   dict_literal [("name", from_option VStr VNone (name data));
                                 ("password", VStr (password data))]]>
                 (fake_users_db g) |}.
Proof.
  destruct r as [|data|data|data|]; simpl.
  - left; reflexivity.
  - destruct (fake_users_db g !! email data) as [user|] eqn:Hl.
    + left. rewrite (signup_taken data g user Hl). reflexivity.
    + right. exists data. rewrite (signup_new data g Hl). auto.
  - left; apply login_globals.
  - left; apply predict_globals.
  - left; reflexivity.
Qed.

(** X4. Whatever the requests, a registered user stays registered with
    the user dict stored at sign-up: no handler deletes or replaces an
    entry of the store. *)
Theorem users_never_change
    (g : Globals) (requests : list request) (em : string) (user : gmap string pyval) :
  fake_users_db g !! em = Some user →
  fake_users_db (serve_state g requests) !! em = Some user.
Proof.
  revert g. induction requests as [|r rest IH]; intros g Hu; simpl; [exact Hu|].
  apply IH.
  destruct (dispatch_globals r g) as [->|(data & _ & Hnew & ->)]; [exact Hu|].
  simpl. rewrite lookup_insert_ne; [exact Hu|].
  intros Heq. rewrite Heq in Hnew. congruence.
Qed.

Lemma users_never_change_witness :
  fake_users_db
    (serve_state
       (signup (auth_request None "ann@example.org" "s3cret")
          (fresh_globals silent_model)).2
       [POST_signup (auth_request None "ann@example.org" "other");
        POST_login (auth_request None "ann@example.org" "other");
        POST_predict empty_request])
    !! "ann@example.org"
  = Some (dict_literal [("name", VNone); ("password", VStr "s3cret")]).
Proof.
  apply users_never_change. reflexivity.
Defined.

Lemma serve_state_model (g : Globals) (requests : list request) :
  model (serve_state g requests) = model g.
Proof.
  revert g. induction requests as [|r rest IH]; intros g; simpl; [reflexivity|].
  rewrite IH.
  destruct (dispatch_globals r g) as [->|(data & _ & _ & ->)]; reflexivity.
Qed.

(** X5. The only request that changes the globals is a sign-up with an
    e-mail that is not registered yet: log-ins, refused sign-ups,
    predictions, the favicon and the status check leave them as they are. *)
Theorem only_new_signup_changes_globals (r : request) (g : Globals) :
  (dispatch r g).2 ≠ g →
  ∃ data, r = POST_signup data ∧ fake_users_db g !! email data = None.
Proof.
  intros Hchanged.
  destruct (dispatch_globals r g) as [Hsame|(data & Hr & Hnew & _)].
  - contradiction.
  - exists data. split; assumption.
Qed.

Lemma only_new_signup_changes_globals_witness :
  (dispatch (POST_signup (auth_request None "ann@example.org" "s3cret"))
     (fresh_globals silent_model)).2 ≠ fresh_globals silent_model ∧
  ∃ data,
    POST_signup (auth_request None "ann@example.org" "s3cret") = POST_signup data ∧
    fake_users_db (fresh_globals silent_model) !! email data = None.
Proof.
  assert (Hchanged :
    (dispatch (POST_signup (auth_request None "ann@example.org" "s3cret"))
       (fresh_globals silent_model)).2 ≠ fresh_globals silent_model).
  { intros H.
    apply (f_equal (fun g => fake_users_db g !! "ann@example.org")) in H.
    vm_compute in H. discriminate H. }
  split; [exact Hchanged|].
  exact (only_new_signup_changes_globals _ _ Hchanged).
Defined.

Lemma predict_model_only (data : PredictRequest) (g1 g2 : Globals) :
  model g1 = model g2 → (predict data g1).1 = (predict data g2).1.
Proof.
  intros Hm. unfold predict, try_except_Exception.
  rewrite (predict_try_run data g1 _ (predict_features_run data g1)).
  rewrite (predict_try_run data g2 _ (predict_features_run data g2)).
  rewrite Hm.
  destruct (model g2 _) as [[|pred preds]|e]; simpl; try reflexivity.
  destruct (is_Exception (exn_cls e)); reflexivity.
Qed.

(** X6. Predictions are stateless: whatever requests were handled before,
    sign-ups included, [predict] answers a request as it would have right
    after start-up. *)
Theorem predict_ignores_history
    (data : PredictRequest) (g : Globals) (requests : list request) :
  (predict data (serve_state g requests)).1 = (predict data g).1.
Proof. apply predict_model_only. apply serve_state_model. Qed.

(** ** No request goes unanswered *)

Lemma fresh_globals_well_formed (m : Estimator) : users_well_formed (fresh_globals m).
Proof. intros em user Hu. simpl in Hu. rewrite lookup_empty in Hu. discriminate Hu. Qed.

Lemma dispatch_well_formed (r : request) (g : Globals) :
  users_well_formed g → users_well_formed (dispatch r g).2.
Proof.
  intros Hwf.
  destruct (dispatch_globals r g) as [->|(data & _ & _ & ->)]; [exact Hwf|].
  intros em user. simpl.
  destruct (decide (email data = em)) as [->|Hne].
  - rewrite lookup_insert_eq. intros [= <-]. exists (password data). reflexivity.
  - rewrite lookup_insert_ne by exact Hne. apply Hwf.
Qed.

Lemma login_returns (data : AuthRequest) (g : Globals) :
  users_well_formed g → ∃ r, login data g = (Return r, g).
Proof.
  intros Hwf. destruct (fake_users_db g !! email data) as [user|] eqn:Hu.
  - destruct (Hwf _ _ Hu) as [p Hp].
    rewrite (login_stored data g user _ Hu Hp). eexists; reflexivity.
  - unfold login. rewrite Hu. eexists; reflexivity.
Qed.

Lemma dispatch_raises (r : request) (g g' : Globals) (e : exn) :
  users_well_formed g →
  dispatch r g = (Raise e, g') →
  ∃ data, r = POST_predict data ∧ is_Exception (exn_cls e) = false.
Proof.
  intros Hwf Hr. destruct r as [|data|data|data|]; simpl in Hr.
  - discriminate Hr.
  - unfold signup in Hr. destruct (fake_users_db g !! email data); discriminate Hr.
  - destruct (login_returns data g Hwf) as [rep Hrep]. congruence.
  - exists data. split; [reflexivity|].
    unfold predict, try_except_Exception in Hr.
    destruct (predict_try data g) as [[rep|e'] g''];
      [discriminate Hr|].
    destruct (is_Exception (exn_cls e')) eqn:Hexc; [discriminate Hr|].
    injection Hr as <- _. exact Hexc.
  - discriminate Hr.
Qed.

Lemma serve_answers (g : Globals) (requests : list request) :
  users_well_formed g →
  Forall2
    (fun r o => ∀ e, o = Raise e →
                     ∃ data, r = POST_predict data ∧ is_Exception (exn_cls e) = false)
    requests (serve g requests).
Proof.
  revert g. induction requests as [|r rest IH]; intros g Hwf; simpl.
  - constructor.
  - pose proof (dispatch_well_formed r g Hwf) as Hwf'.
    destruct (dispatch r g) as [o g'] eqn:Hd. constructor.
    + intros e ->. exact (dispatch_raises r g g' e Hwf Hd).
    + apply IH. exact Hwf'.
Qed.

(** X7. From start-up on, every request gets a reply from its handler;
    the one exception is a prediction whose estimator raised something
    that does not derive from [Exception]. In particular a log-in never
    fails on a stored user without a password, because [signup] stores
    one with every user. *)
Theorem requests_are_answered (m : Estimator) (requests : list request) :
  Forall2
    (fun r o => ∀ e, o = Raise e →
                     ∃ data, r = POST_predict data ∧ is_Exception (exn_cls e) = false)
    requests (serve (fresh_globals m) requests).
Proof. apply serve_answers, fresh_globals_well_formed. Qed.



(** ** More on the category encoder *)

Lemma lower_char_idemp (c : ascii) : lower_char (lower_char c) = lower_char c.
Proof. destruct c as [[] [] [] [] [] [] [] []]; reflexivity. Qed.

Lemma lower_idemp (s : string) : lower (lower s) = lower s.
Proof.
  induction s as [|c s IH]; simpl; [reflexivity|].
  rewrite lower_char_idemp, IH. reflexivity.
Qed.

Lemma lower_app (s t : string) : lower (s +:+ t) = lower s +:+ lower t.
Proof. induction s as [|c s IH]; simpl; [reflexivity|]. rewrite IH. reflexivity. Qed.

(** X9. On the seven maps of the module the code 0 is unambiguous:
    [encode] gives 0 for a label exactly when its lower-cased form is not a
    key of the map, no listed label has code 0. *)
Theorem zero_code_means_unknown (f : category_field) (label : string) (g : Globals) :
  encode (Some label) (category_map f) g = (Return 0, g)
  ↔ category_map f !! lower label = None.
Proof.
  rewrite encode_run. unfold code_of; simpl. split.
  - destruct (category_map f !! lower label) as [code|] eqn:Hl; [|reflexivity].
    simpl. intros [= ->]. exfalso.
    apply category_map_lookup in Hl.
    pose proof (category_items_range f) as Hall.
    rewrite Forall_forall in Hall. specialize (Hall _ Hl). simpl in Hall. lia.
  - intros ->. reflexivity.
Qed.

Lemma NoDup_codes (f : category_field) : NoDup (spec_category_items f).*2.
Proof. destruct f; refine (bool_decide_unpack _ _); vm_compute; exact I. Qed.

Lemma same_code_same_key {A B : Type} (l : list (A * B)) (k1 k2 : A) (c : B) :
  NoDup l.*2 → (k1, c) ∈ l → (k2, c) ∈ l → k1 = k2.
Proof.
  induction l as [|[k c'] l IH]; simpl; intros Hnd H1 H2.
  - inversion H1.
  - apply NoDup_cons in Hnd as [Hfresh Hnd].
    apply elem_of_cons in H1 as [H1|H1]; apply elem_of_cons in H2 as [H2|H2].
    + congruence.
    + exfalso. apply Hfresh. apply list_elem_of_fmap. exists (k2, c).
      split; [simpl; congruence|exact H2].
    + exfalso. apply Hfresh. apply list_elem_of_fmap. exists (k1, c).
      split; [simpl; congruence|exact H1].
    + exact (IH Hnd H1 H2).
Qed.

(** X10. Within a map, two labels that get the same non-zero code are the
    same label up to case: the codes tell the known labels apart. *)
Theorem codes_tell_labels_apart
    (f : category_field) (label1 label2 : string) (code : Z) (g : Globals) :
  code ≠ 0 →
  encode (Some label1) (category_map f) g = (Return code, g) →
  encode (Some label2) (category_map f) g = (Return code, g) →
  lower label1 = lower label2.
Proof.
  rewrite !encode_run. unfold code_of; simpl. intros Hnz H1 H2.
  destruct (category_map f !! lower label1) as [c1|] eqn:Hl1; simpl in H1;
    [|congruence].
  destruct (category_map f !! lower label2) as [c2|] eqn:Hl2; simpl in H2;
    [|congruence].
  assert (c1 = code) as -> by congruence.
  assert (c2 = code) as -> by congruence.
  apply category_map_lookup in Hl1, Hl2.
  exact (same_code_same_key _ _ _ _ (NoDup_codes f) Hl1 Hl2).
Qed.

Lemma codes_tell_labels_apart_witness :
  lower "Keto" = lower "KETO".
Proof.
  apply (codes_tell_labels_apart Diet_type "Keto" "KETO" 3 (fresh_globals silent_model)).
  - lia.
  - reflexivity.
  - reflexivity.
Defined.

(** X11. The codes of a map are exactly 1, ..., N: every number from 1 to
    the size of the map is the code of some label. *)
Theorem every_code_is_used (f : category_field) (n : Z) (g : Globals) :
  1 ≤ n ≤ Z.of_nat (size (category_map f)) →
  ∃ label, encode (Some label) (category_map f) g = (Return n, g).
Proof.
  rewrite <- top_code_size. intros Hn.
  destruct f; simpl in Hn.
  - assert (n = 1 ∨ n = 2 ∨ n = 3) as [->|[->| ->]] by lia;
      [exists "male"|exists "female"|exists "other"]; reflexivity.
  - assert (n = 1 ∨ n = 2 ∨ n = 3 ∨ n = 4) as [->|[->|[->| ->]]] by lia;
      [exists "strength"|exists "cardio"|exists "flexibility"|exists "other"];
      reflexivity.
  - assert (n = 1 ∨ n = 2 ∨ n = 3) as [->|[->| ->]] by lia;
      [exists "beginner"|exists "intermediate"|exists "advanced"]; reflexivity.
  - assert (n = 1 ∨ n = 2 ∨ n = 3 ∨ n = 4 ∨ n = 5) as [->|[->|[->|[->| ->]]]] by lia;
      [exists "core"|exists "upper body"|exists "lower body"|exists "full body"
      |exists "other"]; reflexivity.
  - assert (n = 1 ∨ n = 2 ∨ n = 3 ∨ n = 4) as [->|[->|[->| ->]]] by lia;
      [exists "breakfast"|exists "lunch"|exists "dinner"|exists "snack"];
      reflexivity.
  - assert (n = 1 ∨ n = 2 ∨ n = 3 ∨ n = 4 ∨ n = 5) as [->|[->|[->|[->| ->]]]] by lia;
      [exists "standard"|exists "vegan"|exists "keto"|exists "paleo"
      |exists "mediterranean"]; reflexivity.
  - assert (n = 1 ∨ n = 2 ∨ n = 3 ∨ n = 4 ∨ n = 5) as [->|[->|[->|[->| ->]]]] by lia;
      [exists "baked"|exists "boiled"|exists "grilled"|exists "fried"
      |exists "steamed"]; reflexivity.
Qed.

Lemma every_code_is_used_witness :
  ∃ label, encode (Some label) (category_map Body_part) (fresh_globals silent_model)
           = (Return 4, fresh_globals silent_model).
Proof.
  apply (every_code_is_used Body_part 4 (fresh_globals silent_model)).
  vm_compute. split; discriminate.
Defined.

Lemma no_key_starts_with_space (f : category_field) (s : string) :
  String " " s ∉ (spec_category_items f).*1.
Proof.
  intros H. destruct f; simpl in H;
    repeat (apply elem_of_cons in H as [H|H]; [discriminate H|]);
    inversion H.
Qed.

(** Peels the characters of [s +:+ " " = key] off, for a literal key. *)
Ltac peel_key H s :=
  repeat (destruct s as [|? s]; simpl in H; [discriminate H|injection H as _ H]);
  destruct s; discriminate H.

Lemma no_key_ends_with_space (f : category_field) (s : string) :
  s +:+ " " ∉ (spec_category_items f).*1.
Proof.
  intros H. destruct f; simpl in H;
    repeat (apply elem_of_cons in H as [H|H]; [peel_key H s|]);
    inversion H.
Qed.

(** X12. Labels are not trimmed: on each of the seven maps a label that
    starts or ends with a space gets 0, a known label with a stray space
    included. *)
Theorem spaces_are_not_trimmed (f : category_field) (label : string) (g : Globals) :
  encode (Some (" " +:+ label)) (category_map f) g = (Return 0, g) ∧
  encode (Some (label +:+ " ")) (category_map f) g = (Return 0, g).
Proof.
  split; apply encode_unknown.
  - simpl. apply no_key_starts_with_space.
  - rewrite lower_app. simpl. apply no_key_ends_with_space.
Qed.

(** X13. [encode] looks the lower-cased label up, so a key that is not
    in lower case can never be found: on a map all of whose keys contain
    an upper-case letter every label gets 0, spelt as the key or not. *)
Theorem upper_case_keys_are_dead (mapping : gmap string Z) (label : string) (g : Globals) :
  (∀ k, is_Some (mapping !! k) → lower k ≠ k) →
  encode (Some label) mapping g = (Return 0, g).
Proof.
  intros Hkeys. rewrite encode_run. unfold code_of; simpl.
  destruct (mapping !! lower label) as [code|] eqn:Hl; [|reflexivity].
  exfalso. apply (Hkeys (lower label)); [eexists; exact Hl|].
  apply lower_idemp.
Qed.

Lemma upper_case_keys_are_dead_witness :
  encode (Some "Male") {[ "Male" := 1 ]} (fresh_globals silent_model)
  = (Return 0, fresh_globals silent_model).
Proof.
  apply upper_case_keys_are_dead.
  intros k [code Hk].
  apply lookup_singleton_Some in Hk as [<- _]. discriminate.
Defined.

(** ** More on the feature list *)

Lemma or_0_is_number (x : option float) : is_number (or_0 x) = true.
Proof. destruct x as [f|]; simpl; [destruct (float_truthy f)|]; reflexivity. Qed.

(** X14. Every slot of the feature list is a number, an int or a float:
    no [None] and no string ever reaches the estimator, whatever the
    request leaves out. *)
Theorem features_are_numbers (data : PredictRequest) (g : Globals) :
  ∃ features : list pyval,
    predict_features data g = (Return features, g) ∧
    forallb is_number features = true.
Proof.
  eexists. split; [apply predict_features_run|].
  simpl. rewrite !or_0_is_number. reflexivity.
Qed.

Lemma code_of_lower (c1 c2 : option string) (mapping : gmap string Z) :
  lower <$> c1 = lower <$> c2 → code_of c1 mapping = code_of c2 mapping.
Proof.
  destruct c1 as [l1|], c2 as [l2|]; simpl; intros H;
    first [discriminate H | reflexivity | idtac].
  injection H as H. unfold code_of; simpl. rewrite H. reflexivity.
Qed.

Lemma predict_features_ext_lower (d1 d2 : PredictRequest) (g : Globals) :
  (∀ f, or_0 (numeric_value f d1) = or_0 (numeric_value f d2)) →
  (∀ c, lower <$> category_label c d1 = lower <$> category_label c d2) →
  predict_features d1 g = predict_features d2 g.
Proof.
  intros Hn Hc. rewrite !predict_features_run.
  pose proof (Hn Age); pose proof (Hn Weight); pose proof (Hn Height);
  pose proof (Hn Fat_percentage); pose proof (Hn Bmi_input);
  pose proof (Hn Session_duration); pose proof (Hn Workout_frequency);
  pose proof (Hn Max_bpm); pose proof (Hn Avg_bpm); pose proof (Hn Resting_bpm);
  pose proof (Hn Water_intake); pose proof (Hn Meals_frequency);
  pose proof (Hn Sugar_g); pose proof (Hn Sodium_mg);
  pose proof (Hn Cholesterol_mg); pose proof (Hn Serving_size_g);
  pose proof (Hn Prep_time_min); pose proof (Hn Cook_time_min);
  pose proof (Hn Rating); pose proof (Hn Experience_level);
  pose proof (Hn Physical_exercise).
  pose proof (code_of_lower _ _ gender_map (Hc Gender)).
  pose proof (code_of_lower _ _ workout_map (Hc Workout_type)).
  pose proof (code_of_lower _ _ difficulty_map (Hc Difficulty)).
  pose proof (code_of_lower _ _ body_part_map (Hc Body_part)).
  pose proof (code_of_lower _ _ meal_map (Hc Meal_type)).
  pose proof (code_of_lower _ _ diet_map (Hc Diet_type)).
  pose proof (code_of_lower _ _ cooking_map (Hc Cooking_method)).
  simpl in *. congruence.
Qed.

(** X15. The reply of [predict] depends on the request only through the
    labels up to case and through [x or 0] of the numeric fields: two
    requests that agree on those get the same reply, an error reply
    included. *)
Theorem predict_reply_ext (d1 d2 : PredictRequest) (g : Globals) :
  (∀ f, or_0 (numeric_value f d1) = or_0 (numeric_value f d2)) →
  (∀ c, lower <$> category_label c d1 = lower <$> category_label c d2) →
  predict d1 g = predict d2 g.
Proof.
  intros Hn Hc.
  pose proof (predict_features_run d1 g) as H2.
  rewrite (predict_features_ext_lower d1 d2 g Hn Hc) in H2.
  unfold predict, try_except_Exception.
  rewrite (predict_try_run d1 g _ (predict_features_run d1 g)).
  rewrite (predict_try_run d2 g _ H2). reflexivity.
Qed.

Lemma predict_reply_ext_witness :
  predict shouted_request (fresh_globals (constant_model float_1))
  = predict example_request (fresh_globals (constant_model float_1)).
Proof.
  apply predict_reply_ext.
  - intros []; reflexivity.
  - intros []; reflexivity.
Defined.

(** ** More on start-up *)

Lemma after_makedirs_model (BASE_DIR : string) (fs : gmap string node) :
  after_makedirs BASE_DIR fs !! MODEL_FILE BASE_DIR = fs !! MODEL_FILE BASE_DIR.
Proof.
  unfold after_makedirs. destruct (fs !! STATIC_DIR BASE_DIR); [reflexivity|].
  apply lookup_insert_ne, MODEL_FILE_ne_STATIC_DIR.
Qed.

(** Start-up, case by case on what is at the two paths it looks at. *)
Lemma startup_cases (BASE_DIR : string) (fs : gmap string node) :
  startup BASE_DIR fs =
  match fs !! STATIC_DIR BASE_DIR with
  | Some (File _) => (Raise (Exn FileExistsError (STATIC_DIR BASE_DIR)), fs)
  | _ =>
      (match fs !! MODEL_FILE BASE_DIR with
       | None =>
           Raise (Exn FileNotFoundError
                    "Model file missing: calories_predictor_model.joblib")
       | Some Directory => Raise (Exn IsADirectoryError (MODEL_FILE BASE_DIR))
       | Some (File (Raise e)) => Raise e
       | Some (File (Return m)) => Return (fresh_globals m)
       end, after_makedirs BASE_DIR fs)
  end.
Proof.
  unfold startup, makedirs_exist_ok, path_exists, joblib_load, after_makedirs.
  destruct (fs !! STATIC_DIR BASE_DIR) as [[|u]|]; [|reflexivity|];
    try rewrite (lookup_insert_ne fs _ _ _ (MODEL_FILE_ne_STATIC_DIR BASE_DIR));
    (destruct (fs !! MODEL_FILE BASE_DIR) as [[|[m|e]]|];
       [ rewrite bool_decide_eq_true_2 by (eexists; reflexivity); reflexivity ..
       | rewrite bool_decide_eq_false_2 by (intros [? [=]]); reflexivity ]).
Qed.

(** X16. Start-up succeeds exactly when the model file unpickles to an
    estimator and the path of the static directory is not taken by a
    file; the globals it gives hold that estimator and an empty user
    store. *)
Theorem startup_succeeds_iff (BASE_DIR : string) (fs : gmap string node) (g : Globals) :
  (startup BASE_DIR fs).1 = Return g
  ↔ ∃ m, fs !! MODEL_FILE BASE_DIR = Some (File (Return m)) ∧
         (∀ u, fs !! STATIC_DIR BASE_DIR ≠ Some (File u)) ∧
         g = fresh_globals m.
Proof.
  rewrite startup_cases. split.
  - intros H.
    destruct (fs !! STATIC_DIR BASE_DIR) as [[|u]|]; simpl in H;
      try discriminate H;
      (destruct (fs !! MODEL_FILE BASE_DIR) as [[|[m|e]]|]; try discriminate H;
       injection H as <-; exists m; split; [reflexivity|];
       split; [intros u; discriminate|reflexivity]).
  - intros (m & Hfile & Hstatic & ->). rewrite Hfile.
    destruct (fs !! STATIC_DIR BASE_DIR) as [[|u]|]; try reflexivity.
    exfalso. exact (Hstatic u eq_refl).
Qed.

(** X17. The estimator every request sees is the one unpickled from the
    model file at start-up, whatever requests were handled since. *)
Theorem estimator_is_the_file
    (BASE_DIR : string) (fs : gmap string node) (g : Globals) (m : Estimator)
    (requests : list request) :
  (startup BASE_DIR fs).1 = Return g →
  fs !! MODEL_FILE BASE_DIR = Some (File (Return m)) →
  model (serve_state g requests) = m.
Proof.
  intros Hstart Hfile. rewrite serve_state_model.
  rewrite startup_cases, Hfile in Hstart.
  destruct (fs !! STATIC_DIR BASE_DIR) as [[|u]|]; simpl in Hstart;
    first [discriminate Hstart | injection Hstart as <-; reflexivity].
Qed.


(** X19. Start-up changes the file system at one path at most: it
    creates the static directory when nothing is there, and leaves every
    other path, the model file and the index page included, as it was. *)
Theorem startup_file_system (BASE_DIR : string) (fs : gmap string node) :
  (∀ p, p ≠ STATIC_DIR BASE_DIR → (startup BASE_DIR fs).2 !! p = fs !! p) ∧
  (is_Some (fs !! STATIC_DIR BASE_DIR) → (startup BASE_DIR fs).2 = fs) ∧
  (fs !! STATIC_DIR BASE_DIR = None →
   (startup BASE_DIR fs).2 !! STATIC_DIR BASE_DIR = Some Directory).
Proof.
  rewrite startup_cases. unfold after_makedirs.
  destruct (fs !! STATIC_DIR BASE_DIR) as [[|u]|] eqn:Hs; simpl.
  - split; [reflexivity|]. split; [reflexivity|discriminate].
  - split; [reflexivity|]. split; [reflexivity|discriminate].
  - split; [intros p Hp; apply lookup_insert_ne; congruence|].
    split; [intros [? [=]]|intros _; apply lookup_insert_eq].
Qed.

(** X20. Starting again changes nothing: on the file system a start-up
    left behind, a second start-up ends the same way and leaves the same
    file system. *)
Theorem startup_again (BASE_DIR : string) (fs : gmap string node) :
  startup BASE_DIR (startup BASE_DIR fs).2 = startup BASE_DIR fs.
Proof.
  rewrite (startup_cases BASE_DIR fs).
  destruct (fs !! STATIC_DIR BASE_DIR) as [[|u]|] eqn:Hs; simpl;
    [|rewrite startup_cases, Hs; reflexivity|].
  all: rewrite (startup_cases BASE_DIR (after_makedirs BASE_DIR fs)).
  all: rewrite after_makedirs_model.
  all: assert (Hdir : after_makedirs BASE_DIR fs !! STATIC_DIR BASE_DIR = Some Directory)
         by (unfold after_makedirs; rewrite Hs; first [exact Hs|apply lookup_insert_eq]).
  all: assert (Hidem : after_makedirs BASE_DIR (after_makedirs BASE_DIR fs)
                       = after_makedirs BASE_DIR fs)
         by (unfold after_makedirs at 1; rewrite Hdir; reflexivity).
  all: rewrite Hdir, Hidem; reflexivity.
Qed.

Lemma INDEX_FILE_ne_STATIC_DIR (BASE_DIR : string) :
  INDEX_FILE BASE_DIR ≠ STATIC_DIR BASE_DIR.
Proof.
  unfold INDEX_FILE, path_join.
  assert (Hne : ∀ (p x : string), x ≠ "" → p +:+ x ≠ p).
  { induction p as [|c p IH]; simpl; intros x Hx H; [contradiction|].
    injection H as H. exact (IH x Hx H). }
  destruct (bool_decide (STATIC_DIR BASE_DIR = "") || ends_with_sep (STATIC_DIR BASE_DIR));
    apply Hne; discriminate.
Qed.

(** X21. Start-up never creates the index page: [serve_index] answers
    after start-up as it would have before, with the file when
    [index1.html] was already in the static directory and with the 404
    text otherwise. *)
Theorem index_after_startup (BASE_DIR : string) (fs : gmap string node) :
  serve_index BASE_DIR (startup BASE_DIR fs).2 = serve_index BASE_DIR fs ∧
  (fs !! INDEX_FILE BASE_DIR = None →
   serve_index BASE_DIR (startup BASE_DIR fs).2
   = Plain (Response "index1.html NOT FOUND inside /static" 404)).
Proof.
  assert (Hsame : (startup BASE_DIR fs).2 !! INDEX_FILE BASE_DIR
                  = fs !! INDEX_FILE BASE_DIR).
  { rewrite startup_cases. unfold after_makedirs.
    destruct (fs !! STATIC_DIR BASE_DIR) as [[|u]|]; simpl; try reflexivity.
    apply lookup_insert_ne. intros H. symmetry in H.
    exact (INDEX_FILE_ne_STATIC_DIR BASE_DIR H). }
  unfold serve_index, path_exists. rewrite Hsame. split; [reflexivity|].
  intros ->. rewrite bool_decide_eq_false_2 by (intros [? [=]]). reflexivity.
Qed.

Lemma estimator_is_the_file_witness :
  model (serve_state (fresh_globals (constant_model float_1))
           [POST_signup (auth_request None "ann@example.org" "s3cret");
            POST_predict empty_request])
  = constant_model float_1.
Proof.
  apply (estimator_is_the_file "/srv/fittrack" model_only_fs).
  - reflexivity.
  - reflexivity.
Defined.


(** ** The test script *)

Ltac by_computation := refine (bool_decide_unpack _ _); vm_compute; exact I.

Lemma io_bind_run {A B : Type} (c : IO A) (k : A → IO B) (out out' : list string) (a : A) :
  c out = (Return a, out') → (c ≫= k) out = k a out'.
Proof. intros H. unfold mbind, IO_bind. rewrite H. reflexivity. Qed.

Lemma io_bind_raise {A B : Type} (c : IO A) (k : A → IO B) (out out' : list string) (e : exn) :
  c out = (Raise e, out') → (c ≫= k) out = (Raise e, out').
Proof. intros H. unfold mbind, IO_bind. rewrite H. reflexivity. Qed.

Lemma io_lift_run {A : Type} (o : outcome A) (a : A) (out : list string) :
  o = Return a → io_lift o out = (Return a, out).
Proof. intros ->. reflexivity. Qed.

Lemma io_lift_raise {A : Type} (o : outcome A) (e : exn) (out : list string) :
  o = Raise e → @io_lift A o out = (Raise e, out).
Proof. intros ->. reflexivity. Qed.

Lemma features_to_keep_spec (df : DataFrame) (col : string) :
  col ∈ features_to_keep df ↔ col ∈ columns df ∧ col ∉ DROP_COLUMNS.
Proof. unfold features_to_keep. rewrite list_elem_of_filter. tauto. Qed.

(** X22. The frame handed to the pipeline keeps the columns of the test
    data in their order, without any of the dropped ones: a dropped label
    is no column of it and no cell of its rows. In particular the target
    [Calories_Burned] never reaches the pipeline. *)
Theorem dropped_columns_never_reach_pipeline (df : DataFrame) :
  sublist (columns (X_test_sample df)) (columns df) ∧
  (∀ col, col ∈ columns df → col ∉ DROP_COLUMNS → col ∈ columns (X_test_sample df)) ∧
  (∀ col, col ∈ DROP_COLUMNS →
          (col ∉ columns (X_test_sample df)) ∧
          (∀ row, row ∈ rows (X_test_sample df) → row !! col = None)) ∧
  TARGET_COLUMN ∉ columns (X_test_sample df).
Proof.
  split; [apply sublist_filter|].
  split; [intros col Hin Hkeep; simpl; apply features_to_keep_spec; auto|].
  assert (Hdrop : ∀ col, col ∈ DROP_COLUMNS → col ∉ features_to_keep df).
  { intros col Hd Hk. apply features_to_keep_spec in Hk as [_ Hk]. exact (Hk Hd). }
  split.
  - intros col Hd. split; [exact (Hdrop col Hd)|].
    intros row Hrow. simpl in Hrow.
    apply list_elem_of_fmap in Hrow as (row0 & -> & _).
    apply map_lookup_filter_None. right. intros v _ Hk. simpl in Hk.
    exact (Hdrop col Hd Hk).
  - apply Hdrop. unfold DROP_COLUMNS. set_solver.
Qed.

(** A kept column has the same first cell in the frame handed to the
    pipeline as in the test data. *)
Lemma X_test_sample_cell (df : DataFrame) (col : string) (v : pyval) :
  col ∉ DROP_COLUMNS →
  column_iloc_0 df col = Return v →
  column_iloc_0 (X_test_sample df) col = Return v.
Proof.
  intros Hkeep. unfold column_iloc_0.
  case_bool_decide as Hcol; [|discriminate].
  assert (Hcol' : col ∈ columns (X_test_sample df))
    by (apply features_to_keep_spec; auto).
  rewrite (bool_decide_eq_true_2 _ Hcol'). simpl.
  destruct (rows df) as [|row rest]; [discriminate|]. simpl.
  intros [= <-]. rewrite map_lookup_filter.
  destruct (row !! col) as [v|]; simpl; [|reflexivity].
  rewrite option_guard_True by exact Hcol'. reflexivity.
Qed.

Lemma synthetic_cell (col : string) (v : pyval) :
  (col, v) ∈ synthetic_items → col ∉ DROP_COLUMNS →
  column_iloc_0 (X_test_sample synthetic_df) col = Return v.
Proof.
  intros Hin Hkeep. apply X_test_sample_cell; [exact Hkeep|].
  assert (Hcol : col ∈ columns synthetic_df).
  { change (col ∈ synthetic_items.*1).
    apply list_elem_of_fmap. exists (col, v). auto. }
  unfold column_iloc_0. rewrite (bool_decide_eq_true_2 _ Hcol).
  change (rows synthetic_df) with [dict_literal synthetic_items]. cbv beta iota.
  assert (Hl : dict_literal synthetic_items !! col = Some v).
  { apply dict_literal_lookup; [by_computation|exact Hin]. }
  rewrite Hl. reflexivity.
Qed.

Section TestScript.
Context (format_value : pyval → string).
Context (format_2f : float → string) (format_2f_int : Z → string).

(** X23. The report reads the column [Workout_Type]: on test data
    without that column [predict_and_report] never gets to the end,
    whatever the pipeline answers; it stops with an exception. *)
Theorem report_needs_workout_type
    (pipeline : Pipeline) (df : DataFrame) (y_true : pyval) (out : list string) :
  "Workout_Type" ∉ columns df →
  ∃ e out',
    predict_and_report format_value format_2f format_2f_int pipeline df y_true out
    = (Raise e, out').
Proof.
  intros Hno.
  assert (Hno' : "Workout_Type" ∉ columns (X_test_sample df)).
  { simpl. intros H. apply features_to_keep_spec in H as [H _]. exact (Hno H). }
  unfold predict_and_report, mbind, IO_bind, print, iloc_first_row, io_lift,
    first_prediction, mret, IO_ret.
  unfold column_iloc_0 at 3. rewrite (bool_decide_eq_false_2 _ Hno').
  destruct (rows (X_test_sample df)) as [|row rest]; [eexists _, _; reflexivity|].
  destruct (pipeline _) as [[|pred preds]|e]; try (eexists _, _; reflexivity).
  destruct (column_iloc_0 (X_test_sample df) "Gender");
    [|eexists _, _; reflexivity].
  destruct (column_iloc_0 (X_test_sample df) "Weight (kg)");
    eexists _, _; reflexivity.
Qed.

(** X24. When [Newdata.csv] is missing the script cannot finish: the
    synthetic row has no [Workout_Type], so after a successful prediction
    the report stops with [KeyError: 'Workout_Type'], the predicted value
    never printed; and when the prediction fails, its exception ends the
    script. *)
Theorem fallback_never_reports (pipeline : Pipeline) (e0 : exn) :
  exn_cls e0 = FileNotFoundError →
  ∃ e out,
    load_and_test_model format_value format_2f format_2f_int
      (Return pipeline) (Raise e0) [] = (Raise e, out) ∧
    (∀ pred preds,
       pipeline (X_test_sample synthetic_df) = Return (pred :: preds) →
       e = Exn KeyError "'Workout_Type'" ∧
       out = ["1. Loading the trained model from calories_predictor_model.joblib...";
              "   -> Model loaded successfully.";
              "2. Loading test data from Newdata.csv...";
              "Error: Newdata.csv not found. Using a synthetic test sample instead.";
              String "010"%char "3. Making prediction on the test sample...";
              rule;
              "   Test Sample Data Point:";
              "   Gender: " +:+ format_value (VStr "Male") +:+ ", Weight: "
              +:+ format_value (VFloat (f64 4925812092436480 (-46))) +:+ " kg"]).
Proof.
  intros Hcls. unfold load_and_test_model. rewrite Hcls.
  rewrite bool_decide_eq_true_2 by reflexivity.
  do 4 (erewrite io_bind_run by reflexivity).
  erewrite io_bind_run by (vm_compute; reflexivity).
  unfold predict_and_report.
  do 2 (erewrite io_bind_run by reflexivity).
  change (pipeline {| columns := columns (X_test_sample synthetic_df);
                      rows := [_] |})
    with (pipeline (X_test_sample synthetic_df)).
  destruct (pipeline (X_test_sample synthetic_df)) as [[|pred preds]|e].
  - erewrite io_bind_run by reflexivity.
    erewrite io_bind_raise by reflexivity.
    eexists _, _. split; [reflexivity|]. intros ? ? [=].
  - do 4 (erewrite io_bind_run by reflexivity).
    erewrite io_bind_run
      by (apply io_lift_run, (synthetic_cell "Gender" (VStr "Male")); by_computation).
    erewrite io_bind_run
      by (apply io_lift_run,
            (synthetic_cell "Weight (kg)" (VFloat (f64 4925812092436480 (-46))));
          by_computation).
    erewrite io_bind_run by reflexivity.
    erewrite io_bind_raise by reflexivity.
    eexists _, _. split; [reflexivity|]. intros _ _ _. split; reflexivity.
  - erewrite io_bind_raise by reflexivity.
    eexists _, _. split; [reflexivity|]. intros ? ? [=].
Qed.
End TestScript.

Section TestScriptPaths.
Context (format_value : pyval → string).
Context (format_2f : float → string) (format_2f_int : Z → string).

(** X25. When the model file is missing the script prints the error,
    reads no data, predicts nothing and returns normally; any other
    failure of the load ends the script with that exception after the
    first line. *)
Theorem model_missing_stops_early (e0 : exn) (csv : outcome DataFrame) :
  load_and_test_model format_value format_2f format_2f_int (Raise e0) csv [] =
  if bool_decide (exn_cls e0 = FileNotFoundError)
  then (Return tt,
        ["1. Loading the trained model from calories_predictor_model.joblib...";
         "Error: Model file calories_predictor_model.joblib not found. Please run app.py first."])
  else (Raise e0,
        ["1. Loading the trained model from calories_predictor_model.joblib..."]).
Proof.
  unfold load_and_test_model.
  erewrite io_bind_run by reflexivity.
  destruct (bool_decide (exn_cls e0 = FileNotFoundError)); reflexivity.
Qed.

(** X26. Test data without rows, a CSV with a header only, ends the
    script with an [IndexError] before the pipeline is asked anything:
    the outcome is the same for every pipeline. *)
Theorem empty_test_data (pipeline : Pipeline) (df : DataFrame) :
  rows df = [] →
  ∃ msg out,
    load_and_test_model format_value format_2f format_2f_int
      (Return pipeline) (Return df) [] = (Raise (Exn IndexError msg), out) ∧
    ∀ pipeline' : Pipeline,
      load_and_test_model format_value format_2f format_2f_int
        (Return pipeline') (Return df) [] = (Raise (Exn IndexError msg), out).
Proof.
  intros Hrows. unfold load_and_test_model.
  assert (Hx : iloc_first_row (X_test_sample df)
               = Raise (Exn IndexError "positional indexers are out-of-bounds")).
  { unfold iloc_first_row. simpl. rewrite Hrows. reflexivity. }
  destruct (bool_decide (TARGET_COLUMN ∈ columns df)) eqn:Htarget.
  - assert (Hy : column_iloc_0 df TARGET_COLUMN
                 = Raise (Exn IndexError "single positional indexer is out-of-bounds")).
    { unfold column_iloc_0. rewrite Htarget, Hrows. reflexivity. }
    eexists _, _. split; [|intros pipeline'].
    all: do 4 (erewrite io_bind_run by reflexivity).
    all: rewrite Htarget.
    all: erewrite io_bind_raise by (apply io_lift_raise, Hy).
    all: reflexivity.
  - eexists _, _. split; [|intros pipeline'].
    all: do 4 (erewrite io_bind_run by reflexivity).
    all: rewrite Htarget.
    all: erewrite io_bind_run by reflexivity.
    all: unfold predict_and_report.
    all: erewrite io_bind_run by reflexivity.
    all: erewrite io_bind_raise by (apply io_lift_raise, Hx).
    all: reflexivity.
Qed.

(** X27. On test data with rows, with the four columns the report shows
    and without a target column, a successful prediction is reported in
    full: the script returns normally having printed the eleven lines
    below, with the cells of the first row and the first prediction. *)
Theorem report_in_full
    (pipeline : Pipeline) (df row : DataFrame)
    (gender weight workout_type duration : pyval) (pred : float) (preds : list float) :
  TARGET_COLUMN ∉ columns df →
  column_iloc_0 df "Gender" = Return gender →
  column_iloc_0 df "Weight (kg)" = Return weight →
  column_iloc_0 df "Workout_Type" = Return workout_type →
  column_iloc_0 df "Session_Duration (hours)" = Return duration →
  iloc_first_row (X_test_sample df) = Return row →
  pipeline row = Return (pred :: preds) →
  load_and_test_model format_value format_2f format_2f_int
    (Return pipeline) (Return df) [] =
  (Return tt,
   ["1. Loading the trained model from calories_predictor_model.joblib...";
    "   -> Model loaded successfully.";
    "2. Loading test data from Newdata.csv...";
    String "010"%char "3. Making prediction on the test sample...";
    rule;
    "   Test Sample Data Point:";
    "   Gender: " +:+ format_value gender +:+ ", Weight: "
    +:+ format_value weight +:+ " kg";
    "   Workout Type: " +:+ format_value workout_type +:+ ", Duration: "
    +:+ format_value duration +:+ " hours";
    rule;
    "   🔥 Predicted Calories Burned: " +:+ format_2f pred;
    rule]).
Proof.
  intros Htarget Hg Hw Hwt Hd Hrow Hpred.
  apply X_test_sample_cell in Hg; [|by_computation].
  apply X_test_sample_cell in Hw; [|by_computation].
  apply X_test_sample_cell in Hwt; [|by_computation].
  apply X_test_sample_cell in Hd; [|by_computation].
  unfold load_and_test_model.
  do 4 (erewrite io_bind_run by reflexivity).
  rewrite (bool_decide_eq_false_2 _ Htarget).
  erewrite io_bind_run by reflexivity.
  unfold predict_and_report.
  erewrite io_bind_run by reflexivity.
  erewrite io_bind_run by (apply io_lift_run, Hrow).
  erewrite io_bind_run by (apply io_lift_run, Hpred).
  do 3 (erewrite io_bind_run by reflexivity).
  erewrite io_bind_run by (apply io_lift_run, Hg).
  erewrite io_bind_run by (apply io_lift_run, Hw).
  erewrite io_bind_run by reflexivity.
  erewrite io_bind_run by (apply io_lift_run, Hwt).
  erewrite io_bind_run by (apply io_lift_run, Hd).
  do 4 (erewrite io_bind_run by reflexivity).
  reflexivity.
Qed.
End TestScriptPaths.

Lemma report_needs_workout_type_witness :
  ∃ e out',
    predict_and_report sample_format sample_format_2f sample_format_2f_int
      sample_pipeline synthetic_df VNone [] = (Raise e, out').
Proof.
  apply report_needs_workout_type. by_computation.
Defined.

Lemma fallback_never_reports_witness :
  ∃ e out,
    load_and_test_model sample_format sample_format_2f sample_format_2f_int
      (Return sample_pipeline) (Raise (Exn FileNotFoundError "Newdata.csv")) []
    = (Raise e, out) ∧
    (∀ pred preds,
       sample_pipeline (X_test_sample synthetic_df) = Return (pred :: preds) →
       e = Exn KeyError "'Workout_Type'" ∧
       out = ["1. Loading the trained model from calories_predictor_model.joblib...";
              "   -> Model loaded successfully.";
              "2. Loading test data from Newdata.csv...";
              "Error: Newdata.csv not found. Using a synthetic test sample instead.";
              String "010"%char "3. Making prediction on the test sample...";
              rule;
              "   Test Sample Data Point:";
              "   Gender: " +:+ sample_format (VStr "Male") +:+ ", Weight: "
              +:+ sample_format (VFloat (f64 4925812092436480 (-46))) +:+ " kg"]).
Proof.
  apply (fallback_never_reports sample_format sample_format_2f sample_format_2f_int
           sample_pipeline (Exn FileNotFoundError "Newdata.csv")).
  reflexivity.
Defined.

Lemma empty_test_data_witness :
  ∃ msg out,
    load_and_test_model sample_format sample_format_2f sample_format_2f_int
      (Return sample_pipeline) (Return {| columns := columns sample_df; rows := [] |}) []
    = (Raise (Exn IndexError msg), out) ∧
    ∀ pipeline' : Pipeline,
      load_and_test_model sample_format sample_format_2f sample_format_2f_int
        (Return pipeline') (Return {| columns := columns sample_df; rows := [] |}) []
      = (Raise (Exn IndexError msg), out).
Proof.
  apply (empty_test_data sample_format sample_format_2f sample_format_2f_int
           sample_pipeline {| columns := columns sample_df; rows := [] |}).
  reflexivity.
Defined.

Lemma report_in_full_witness :
  load_and_test_model sample_format sample_format_2f sample_format_2f_int
    (Return sample_pipeline) (Return sample_df) [] =
  (Return tt,
   ["1. Loading the trained model from calories_predictor_model.joblib...";
    "   -> Model loaded successfully.";
    "2. Loading test data from Newdata.csv...";
    String "010"%char "3. Making prediction on the test sample...";
    rule;
    "   Test Sample Data Point:";
    "   Gender: Female, Weight: <number> kg";
    "   Workout Type: Cardio, Duration: <number> hours";
    rule;
    "   🔥 Predicted Calories Burned: <float>";
    rule]).
Proof.
  apply (report_in_full sample_format sample_format_2f sample_format_2f_int
           sample_pipeline sample_df (X_test_sample sample_df)
           (VStr "Female") (VFloat float_65) (VStr "Cardio") (VFloat float_1)
           float_1 []).
  - by_computation.
  - reflexivity.
  - reflexivity.
  - reflexivity.
  - reflexivity.
  - reflexivity.
  - reflexivity.
Defined.
